(** * Shallow embedding of launch/evaluation/evaluate_images.py

    The evaluator runs every instance in two stages inside Docker
    containers: stage 1 applies the test patch only, stage 2 applies
    the fix patch and then the test patch; the classification compares
    the pytest exit codes of the two stages.  The orchestrator [main]
    folds the per-instance results into aggregate counters.

    Representation choices.
    - A Python [str] is represented by its UTF-8 encoding, held in a
      Rocq [string] (a list of 8-bit [ascii] bytes).  Lone surrogates,
      which a Python [str] may hold, are written in the generalised
      UTF-8 form (lead byte 0xED followed by 0xA0..0xBF), so encoding a
      [str] to UTF-8 is the identity except that it fails on them.
    - A Python [bytes] value is also a Rocq [string]; [bytes.decode()]
      is strict UTF-8 validation followed by the identity.
    - Time is a natural number of centiseconds. *)

From Stdlib Require Import String Ascii List ZArith Lia Bool.
From Stdlib Require Import Numbers.DecimalString.
From Stdlib Require Import Sorting.Sorted Sorting.Permutation.
Import ListNotations.

Open Scope string_scope.

(* ------------------------------------------------------------------ *)
(** ** Python string primitives *)

Definition ord (a : ascii) : nat := nat_of_ascii a.

(** Number of bytes of the UTF-8 sequence that starts with byte [a]. *)
Definition utf8_seq_len (a : ascii) : nat :=
  let n := ord a in
  if Nat.ltb n 192 then 1 else if Nat.ltb n 224 then 2
  else if Nat.ltb n 240 then 3 else 4.

Fixpoint take_str (n : nat) (s : string) : string :=
  match n, s with
  | O, _ => EmptyString
  | S n', String c s' => String c (take_str n' s')
  | S _, EmptyString => EmptyString
  end.

Fixpoint drop_str (n : nat) (s : string) : string :=
  match n, s with
  | O, _ => s
  | S n', String _ s' => drop_str n' s'
  | S _, EmptyString => EmptyString
  end.

(** The characters (code points) of a [str], each as its own encoding. *)
Fixpoint chars_fuel (fuel : nat) (s : string) : list string :=
  match fuel with
  | O => []
  | S f =>
      match s with
      | EmptyString => []
      | String c _ =>
          let k := utf8_seq_len c in
          take_str k s :: chars_fuel f (drop_str k s)
      end
  end.

Definition chars (s : string) : list string := chars_fuel (String.length s) s.

(** The code points for which [str.isspace()] holds, UTF-8 encoded. *)
Definition space_codes : list (list nat) :=
  [[9]; [10]; [11]; [12]; [13]; [28]; [29]; [30]; [31]; [32];
   [194; 133]; [194; 160]; [225; 154; 128];
   [226; 128; 128]; [226; 128; 129]; [226; 128; 130]; [226; 128; 131];
   [226; 128; 132]; [226; 128; 133]; [226; 128; 134]; [226; 128; 135];
   [226; 128; 136]; [226; 128; 137]; [226; 128; 138];
   [226; 128; 168]; [226; 128; 169]; [226; 128; 175]; [226; 129; 159];
   [227; 128; 128]].

Fixpoint nat_list_eqb (l1 l2 : list nat) : bool :=
  match l1, l2 with
  | [], [] => true
  | x :: l1', y :: l2' => Nat.eqb x y && nat_list_eqb l1' l2'
  | _, _ => false
  end.

Definition is_space (c : string) : bool :=
  let bs := map ord (list_ascii_of_string c) in
  existsb (fun code => nat_list_eqb code bs) space_codes.

(** [str.split()] with no argument: runs of whitespace separate the
    words, leading and trailing whitespace is dropped. *)
Fixpoint split_ws_aux (cs : list string) (cur : string) : list string :=
  match cs with
  | [] => if String.eqb cur "" then [] else [cur]
  | c :: cs' =>
      if is_space c then
        if String.eqb cur "" then split_ws_aux cs' ""
        else cur :: split_ws_aux cs' ""
      else split_ws_aux cs' (cur ++ c)
  end.

Definition py_split (s : string) : list string := split_ws_aux (chars s) "".

(** [str.split(sep)] for a one-character separator. *)
Fixpoint split_on_aux (sep : ascii) (s : string) (cur : string) : list string :=
  match s with
  | EmptyString => [cur]
  | String c s' =>
      if Ascii.eqb c sep then cur :: split_on_aux sep s' ""
      else split_on_aux sep s' (cur ++ String c "")
  end.

Definition py_split_on (sep : ascii) (s : string) : list string :=
  split_on_aux sep s "".

(** [str.lower()] on the ASCII letters.  Non-ASCII characters are kept.
    For the test ['test' in p.lower()] this is exact: no non-ASCII
    character lowers to a string containing t, e or s.  For the image
    key of [get_image_name] it is exact on ASCII instance ids. *)
Definition lower_byte (a : ascii) : ascii :=
  let n := ord a in
  if Nat.leb 65 n && Nat.leb n 90 then ascii_of_nat (n + 32) else a.

Fixpoint py_lower (s : string) : string :=
  match s with
  | EmptyString => EmptyString
  | String c s' => String (lower_byte c) (py_lower s')
  end.

(** [sub in s] *)
Fixpoint py_contains (sub s : string) : bool :=
  String.prefix sub s ||
  match s with
  | EmptyString => false
  | String _ s' => py_contains sub s'
  end.

Definition py_startswith (s p : string) : bool := String.prefix p s.

Definition py_endswith (s p : string) : bool :=
  let n := String.length s in
  let m := String.length p in
  Nat.leb m n && String.eqb (substring (n - m) m s) p.

(** [s[k:]], counted in characters. *)
Definition py_slice_from (k : nat) (s : string) : string :=
  String.concat "" (skipn k (chars s)).

Definition py_truthy (s : string) : bool := negb (String.eqb s "").

(* ------------------------------------------------------------------ *)
(** ** extract_test_files_from_patch *)

(** One iteration of the [for line in lines] loop. *)
Definition scan_line (test_files : list string) (line : string) : list string :=
  if py_startswith line "diff --git" then
    let parts := py_split line in
    if Nat.leb 3 (length parts) then
      let file_path := py_slice_from 2 (nth 2 parts "") in
      if py_contains "test" (py_lower file_path) && py_endswith file_path ".py"
      then test_files ++ [file_path]
      else test_files
    else test_files
  else test_files.

Definition extract_test_files_from_patch (test_patch : string) : list string :=
  if negb (py_truthy test_patch) then []
  else fold_left scan_line (py_split_on "010"%char test_patch) [].

(* ------------------------------------------------------------------ *)
(** ** Further [str] helpers used by the evaluator *)

(** [str.strip()] *)
Fixpoint drop_spaces (cs : list string) : list string :=
  match cs with
  | c :: cs' => if is_space c then drop_spaces cs' else cs
  | [] => []
  end.

Definition py_strip (s : string) : string :=
  String.concat "" (rev (drop_spaces (rev (drop_spaces (chars s))))).

(** [str.replace('/', '_')] *)
Fixpoint replace_slash (s : string) : string :=
  match s with
  | EmptyString => EmptyString
  | String c s' =>
      String (if Ascii.eqb c "/" then "_"%char else c) (replace_slash s')
  end.

(** [p[:i]] and [p[i:]] with [i = p.rfind('/') + 1], as in posixpath. *)
Fixpoint split_last_slash (p : string) : string * string :=
  match p with
  | EmptyString => ("", "")
  | String c p' =>
      let (h, t) := split_last_slash p' in
      if negb (String.eqb h "") then (String c h, t)
      else if Ascii.eqb c "/" then ("/", t)
      else ("", String c t)
  end.

Fixpoint all_slashes (s : string) : bool :=
  match s with
  | EmptyString => true
  | String c s' => Ascii.eqb c "/" && all_slashes s'
  end.

Fixpoint drop_slashes (cs : list ascii) : list ascii :=
  match cs with
  | c :: cs' => if Ascii.eqb c "/" then drop_slashes cs' else cs
  | [] => []
  end.

(** [str.rstrip('/')] *)
Definition rstrip_slash (s : string) : string :=
  string_of_list_ascii (rev (drop_slashes (rev (list_ascii_of_string s)))).

(** [os.path.basename] *)
Definition basename (p : string) : string := snd (split_last_slash p).

(** [os.path.dirname] *)
Definition dirname (p : string) : string :=
  let head := fst (split_last_slash p) in
  if py_truthy head && negb (all_slashes head) then rstrip_slash head else head.

(** [os.path.join(a, b)] *)
Definition path_join (a b : string) : string :=
  if py_startswith b "/" then b
  else if negb (py_truthy a) || py_endswith a "/" then a ++ b
  else a ++ "/" ++ b.

Definition nat_to_string (n : nat) : string :=
  NilEmpty.string_of_uint (Nat.to_uint n).

Definition Z_to_string (z : Z) : string :=
  NilEmpty.string_of_int (Z.to_int z).

Definition bool_to_string (b : bool) : string := if b then "True" else "False".

(** [f"{t:.2f}"] for a time of [t] centiseconds. *)
Definition fmt_seconds (t : nat) : string :=
  let c := t mod 100 in
  nat_to_string (t / 100) ++ "." ++ (if Nat.ltb c 10 then "0" else "")
    ++ nat_to_string c.

Definition nl : string := String "010"%char "".

(* ------------------------------------------------------------------ *)
(** ** UTF-8: [bytes.decode()] and [str.encode('utf-8')] *)

Definition in_range (lo hi : nat) (a : ascii) : bool :=
  Nat.leb lo (ord a) && Nat.leb (ord a) hi.

Definition is_cont (a : ascii) : bool := in_range 128 191 a.

(** Strict UTF-8, as accepted by Python's decoder: no overlong forms, no
    surrogates, nothing above U+10FFFF. *)
Fixpoint utf8_valid (s : string) : bool :=
  match s with
  | EmptyString => true
  | String a s1 =>
      let n := ord a in
      if Nat.ltb n 128 then utf8_valid s1
      else if in_range 194 223 a then
        match s1 with
        | String b s2 => is_cont b && utf8_valid s2
        | EmptyString => false
        end
      else if in_range 224 239 a then
        match s1 with
        | String b (String c s3) =>
            (if Nat.eqb n 224 then in_range 160 191 b
             else if Nat.eqb n 237 then in_range 128 159 b
             else is_cont b)
            && is_cont c && utf8_valid s3
        | _ => false
        end
      else if in_range 240 244 a then
        match s1 with
        | String b (String c (String d s4)) =>
            (if Nat.eqb n 240 then in_range 144 191 b
             else if Nat.eqb n 244 then in_range 128 143 b
             else is_cont b)
            && is_cont c && is_cont d && utf8_valid s4
        | _ => false
        end
      else false
  end.

Definition is_surrogate_char (c : string) : bool :=
  match list_ascii_of_string c with
  | [a; b; _] => Nat.eqb (ord a) 237 && Nat.leb 160 (ord b)
  | _ => false
  end.

Definition has_surrogate (s : string) : bool := existsb is_surrogate_char (chars s).

(* ------------------------------------------------------------------ *)
(** ** Data model *)

(** Exceptions that reach the evaluator.  [APIError] stands for the
    Docker SDK's errors other than [ImageNotFound]; [OSError] for the
    file-system errors of the host ([PermissionError],
    [NotADirectoryError], ...). *)
Inductive exn : Type :=
| TimeoutError (msg : string)
| ImageNotFound (msg : string)
| APIError (msg : string)
| RuntimeError (msg : string)
| ValueError (msg : string)
| OSError (msg : string)
| UnicodeDecodeError
| UnicodeEncodeError.

(** [isinstance(e, TimeoutError)] *)
Definition is_timeout_error (e : exn) : bool :=
  match e with TimeoutError _ => true | _ => false end.

(** [isinstance(e, docker.errors.ImageNotFound)] *)
Definition is_image_not_found (e : exn) : bool :=
  match e with ImageNotFound _ => true | _ => false end.

(** [str(e)].  For the two codec errors the text is a fixed stand-in:
    Python's also names the offending byte and its position. *)
Definition exn_str (e : exn) : string :=
  match e with
  | TimeoutError m | ImageNotFound m | APIError m | RuntimeError m
  | ValueError m | OSError m => m
  | UnicodeDecodeError => "'utf-8' codec can't decode bytes"
  | UnicodeEncodeError => "'utf-8' codec can't encode characters: surrogates not allowed"
  end.

(** The values the evaluator stores under [result['status']]. *)
Inductive Status : Type :=
| unknown | no_instance_dir | no_instance_json | no_test_patch | no_test_files
| no_image | pytest_install_failed | pytest_install_failed_stage2
| test_patch_apply_failed | test_patch_apply_failed_stage2
| fix_patch_apply_failed | test_only_timeout | both_patches_timeout
| f2p_passed | env_passed | failed | error.

Definition Status_eqb (a b : Status) : bool :=
  match a, b with
  | unknown, unknown | no_instance_dir, no_instance_dir
  | no_instance_json, no_instance_json | no_test_patch, no_test_patch
  | no_test_files, no_test_files | no_image, no_image
  | pytest_install_failed, pytest_install_failed
  | pytest_install_failed_stage2, pytest_install_failed_stage2
  | test_patch_apply_failed, test_patch_apply_failed
  | test_patch_apply_failed_stage2, test_patch_apply_failed_stage2
  | fix_patch_apply_failed, fix_patch_apply_failed
  | test_only_timeout, test_only_timeout
  | both_patches_timeout, both_patches_timeout
  | f2p_passed, f2p_passed | env_passed, env_passed | failed, failed
  | error, error => true
  | _, _ => false
  end.

(** The result dictionary built by [evaluate_single_instance]. *)
Record Result : Type := mkResult {
  r_instance_id : string;
  r_status : Status;
  r_env_pass : bool;
  r_f2p_pass : bool;
  r_message : string;
  r_test_only_time : nat;
  r_both_patches_time : nat;
  r_test_only_passed : bool;
  r_both_patches_passed : bool;
  r_timestamp : nat;
  r_image_name : option string;
  r_test_only_log : option string;
  r_both_patches_log : option string;
  r_error_log : option string
}.

Definition init_result (instance_id : string) (ts : nat) : Result :=
  mkResult instance_id unknown false false "" 0 0 false false ts None None None None.

Definition with_status (st : Status) (msg : string) (r : Result) : Result :=
  mkResult (r_instance_id r) st (r_env_pass r) (r_f2p_pass r) msg
    (r_test_only_time r) (r_both_patches_time r) (r_test_only_passed r)
    (r_both_patches_passed r) (r_timestamp r) (r_image_name r)
    (r_test_only_log r) (r_both_patches_log r) (r_error_log r).

Definition with_image (name : string) (r : Result) : Result :=
  mkResult (r_instance_id r) (r_status r) (r_env_pass r) (r_f2p_pass r)
    (r_message r) (r_test_only_time r) (r_both_patches_time r)
    (r_test_only_passed r) (r_both_patches_passed r) (r_timestamp r)
    (Some name) (r_test_only_log r) (r_both_patches_log r) (r_error_log r).

Definition with_test_only (t : nat) (passed : bool) (r : Result) : Result :=
  mkResult (r_instance_id r) (r_status r) (r_env_pass r) (r_f2p_pass r)
    (r_message r) t (r_both_patches_time r) passed (r_both_patches_passed r)
    (r_timestamp r) (r_image_name r) (r_test_only_log r)
    (r_both_patches_log r) (r_error_log r).

Definition with_both_patches (t : nat) (passed : bool) (r : Result) : Result :=
  mkResult (r_instance_id r) (r_status r) (r_env_pass r) (r_f2p_pass r)
    (r_message r) (r_test_only_time r) t (r_test_only_passed r) passed
    (r_timestamp r) (r_image_name r) (r_test_only_log r)
    (r_both_patches_log r) (r_error_log r).

Definition with_logs (a b : string) (r : Result) : Result :=
  mkResult (r_instance_id r) (r_status r) (r_env_pass r) (r_f2p_pass r)
    (r_message r) (r_test_only_time r) (r_both_patches_time r)
    (r_test_only_passed r) (r_both_patches_passed r) (r_timestamp r)
    (r_image_name r) (Some a) (Some b) (r_error_log r).

Definition with_env_pass (b : bool) (r : Result) : Result :=
  mkResult (r_instance_id r) (r_status r) b (r_f2p_pass r)
    (r_message r) (r_test_only_time r) (r_both_patches_time r)
    (r_test_only_passed r) (r_both_patches_passed r) (r_timestamp r)
    (r_image_name r) (r_test_only_log r) (r_both_patches_log r) (r_error_log r).

Definition with_f2p_pass (b : bool) (r : Result) : Result :=
  mkResult (r_instance_id r) (r_status r) (r_env_pass r) b
    (r_message r) (r_test_only_time r) (r_both_patches_time r)
    (r_test_only_passed r) (r_both_patches_passed r) (r_timestamp r)
    (r_image_name r) (r_test_only_log r) (r_both_patches_log r) (r_error_log r).

Definition with_error_log (p : string) (r : Result) : Result :=
  mkResult (r_instance_id r) (r_status r) (r_env_pass r) (r_f2p_pass r)
    (r_message r) (r_test_only_time r) (r_both_patches_time r)
    (r_test_only_passed r) (r_both_patches_passed r) (r_timestamp r)
    (r_image_name r) (r_test_only_log r) (r_both_patches_log r) (Some p).

(** What [container.exec_run] returns. *)
Record ExecResult : Type := mkExecResult { exit_code : Z; output : string }.

(** How a command run by [exec_run_with_timeout] behaves: [exec_run]
    returns (or raises) after [dur] centiseconds, or never returns. *)
Inductive timed_resp : Type :=
| Finishes (dur : nat) (r : exn + ExecResult)
| Hangs.

(** One member of the in-memory tar archive. *)
Record TarEntry : Type := mkTarEntry {
  t_name : string; t_size : nat; t_mtime : nat; t_data : string }.

(** The JSON descriptor; a missing key reads as [''] through [.get]. *)
Record Descriptor : Type := mkDescriptor { d_test_patch : string; d_patch : string }.

(** What the host filesystem says about one instance directory:
    whether it exists, whether it holds [instance.json], and what
    [json.load] makes of that file. *)
Record HostInstance : Type := mkHostInstance {
  hi_dir : bool; hi_json : bool; hi_data : exn + Descriptor }.

(** Facts about the outside world that do not change during a run:
    the host's instance directories, whether [docker.from_env()] fails,
    the local images, the names of containers that other runs hold, and
    the lookups of an image name that the daemon refuses with an error
    other than "not found" (docker-py raises [APIError] for any such
    answer, e.g. 400 for a name that is not a valid reference). *)
Record Env : Type := mkEnv {
  env_host : string -> HostInstance;
  env_client : option exn;
  env_images : list string;
  env_foreign_names : list string;
  env_lookup_error : string -> option exn
}.

Record Container : Type := mkContainer {
  c_id : nat;
  c_name : string;
  c_running : bool;
  c_procs : list (list string);
  c_files : list ((string * string) * string)
}.

(** Observable events, newest first. *)
Inductive event : Type :=
| EvRun (cid : nat)
| EvStop (cid : nat) (ok : bool)
| EvRemove (cid : nat) (ok : bool)
| EvExec (cid : nat) (cmd : list string) (r : exn + ExecResult)
| EvTimed (cid : nat) (cmd : list string) (r : option (exn + ExecResult))
| EvPut (cid : nat) (dir : string) (archive : list TarEntry) (r : exn + bool)
| EvWrite (path : string) (contents : string).

(** The answers the container engine will give, in the order its calls
    are made; [None] is success, [Some e] an exception. *)
Record Queues : Type := mkQueues {
  q_run : list (option exn);
  q_stop : list (option exn);
  q_remove : list (option exn);
  q_exec : list (exn + ExecResult);
  q_timed : list timed_resp;
  q_put : list (exn + bool)
}.

Record Engine : Type := mkEngine {
  e_clock : nat;
  e_next_id : nat;
  e_containers : list Container
}.

(** The state: engine, pending answers, host files, trace, and the two
    locals of [evaluate_single_instance] that its [finally] reads. *)
Record World : Type := mkWorld {
  w_eng : Engine;
  w_q : Queues;
  w_files : list (string * string);
  w_trace : list event;
  w_container : option nat;
  w_result : Result
}.

Definition set_eng (e : Engine) (w : World) : World :=
  mkWorld e (w_q w) (w_files w) (w_trace w) (w_container w) (w_result w).
Definition set_q (q : Queues) (w : World) : World :=
  mkWorld (w_eng w) q (w_files w) (w_trace w) (w_container w) (w_result w).
Definition set_files (f : list (string * string)) (w : World) : World :=
  mkWorld (w_eng w) (w_q w) f (w_trace w) (w_container w) (w_result w).
Definition log_event (ev : event) (w : World) : World :=
  mkWorld (w_eng w) (w_q w) (w_files w) (ev :: w_trace w) (w_container w) (w_result w).
Definition set_container_slot (c : option nat) (w : World) : World :=
  mkWorld (w_eng w) (w_q w) (w_files w) (w_trace w) c (w_result w).
Definition set_result_slot (r : Result) (w : World) : World :=
  mkWorld (w_eng w) (w_q w) (w_files w) (w_trace w) (w_container w) r.

(* ------------------------------------------------------------------ *)
(** ** A state and exception monad *)

Definition M (A : Type) : Type := World -> (exn + A) * World.

Definition ret {A} (a : A) : M A := fun w => (inr a, w).

Definition bind {A B} (m : M A) (k : A -> M B) : M B :=
  fun w => match m w with
           | (inl e, w') => (inl e, w')
           | (inr a, w') => k a w'
           end.

Definition raise {A} (e : exn) : M A := fun w => (inl e, w).

(** [try: m except: h] *)
Definition try_except {A} (m : M A) (h : exn -> M A) : M A :=
  fun w => match m w with
           | (inl e, w') => h e w'
           | r => r
           end.

(** [try: m finally: fin] *)
Definition try_finally {A} (m : M A) (fin : M unit) : M A :=
  fun w => match m w with
           | (r, w') => match fin w' with
                        | (inl e, w'') => (inl e, w'')
                        | (inr _, w'') => (r, w'')
                        end
           end.

Definition lift_sum {A} (x : exn + A) : M A :=
  match x with inl e => raise e | inr a => ret a end.

Notation "x <- m ;; k" := (bind m (fun x => k))
  (at level 61, m at next level, right associativity).
Notation "' p <- m ;; k" := (bind m (fun x => match x with p => k end))
  (at level 61, p pattern, m at next level, right associativity).
Notation "m ;; k" := (bind m (fun _ : unit => k))
  (at level 61, right associativity).

Definition modify (f : World -> World) : M unit := fun w => (inr tt, f w).
Definition gets {A} (f : World -> A) : M A := fun w => (inr (f w), w).

Definition get_result : M Result := gets w_result.
Definition update_result (f : Result -> Result) : M unit :=
  modify (fun w => set_result_slot (f (w_result w)) w).
Definition get_container : M (option nat) := gets w_container.
Definition set_container (c : option nat) : M unit := modify (set_container_slot c).

(** [time.time()] and [time.sleep] *)
Definition now : M nat := gets (fun w => e_clock (w_eng w)).
Definition sleep (t : nat) : M unit :=
  modify (fun w => let e := w_eng w in
                   set_eng (mkEngine (e_clock e + t) (e_next_id e) (e_containers e)) w).

(** [with open(path, 'w') as f: f.write(contents)] *)
Definition write_file (path contents : string) : M unit :=
  modify (fun w => log_event (EvWrite path contents)
                     (set_files ((path, contents) :: w_files w) w)).

(** [bytes.decode()] *)
Definition py_decode (b : string) : M string :=
  if utf8_valid b then ret b else raise UnicodeDecodeError.

(** [str.encode('utf-8')] *)
Definition py_encode (s : string) : M string :=
  if has_surrogate s then raise UnicodeEncodeError else ret s.

(* ------------------------------------------------------------------ *)
(** ** The container engine *)

Definition find_container (cid : nat) (cs : list Container) : option Container :=
  find (fun c => Nat.eqb (c_id c) cid) cs.

Definition map_container (cid : nat) (f : Container -> Container)
  (cs : list Container) : list Container :=
  map (fun c => if Nat.eqb (c_id c) cid then f c else c) cs.

Definition upd_containers (f : list Container -> list Container) (w : World) : World :=
  let e := w_eng w in
  set_eng (mkEngine (e_clock e) (e_next_id e) (f (e_containers e))) w.

Definition pop {A} (d : A) (l : list A) : A * list A :=
  match l with [] => (d, []) | x :: l' => (x, l') end.

Section Engine.
Variable env : Env.

(** [docker.from_env()] *)
Definition docker_from_env : M unit :=
  match env_client env with Some e => raise e | None => ret tt end.

(** [client.images.get(name)] *)
Definition images_get (name : string) : M unit :=
  match env_lookup_error env name with
  | Some e => raise e
  | None =>
      if existsb (String.eqb name) (env_images env) then ret tt
      else raise (ImageNotFound ("No such image: " ++ name))
  end.

(** [client.containers.run(image, name=..., command="tail -f /dev/null",
    detach=True)]: creates and starts a container. *)
Definition containers_run (name : string) : M nat :=
  fun w =>
    let q := w_q w in
    let (a, rest) := pop None (q_run q) in
    let w1 := set_q (mkQueues rest (q_stop q) (q_remove q) (q_exec q)
                       (q_timed q) (q_put q)) w in
    match a with
    | Some e => (inl e, w1)
    | None =>
        let eng := w_eng w1 in
        if existsb (String.eqb name)
             (env_foreign_names env ++ map c_name (e_containers eng))
        then (inl (APIError ("Conflict: container name " ++ name ++ " is already in use")), w1)
        else
          let cid := e_next_id eng in
          let c := mkContainer cid name true [["tail"; "-f"; "/dev/null"]] [] in
          (inr cid,
           log_event (EvRun cid)
             (set_eng (mkEngine (e_clock eng) (S cid) (e_containers eng ++ [c])) w1))
    end.

(** [container.stop(timeout=5)]: stopping ends every process. *)
Definition container_stop (cid : nat) : M unit :=
  fun w =>
    let q := w_q w in
    let (a, rest) := pop None (q_stop q) in
    let w1 := set_q (mkQueues (q_run q) rest (q_remove q) (q_exec q)
                       (q_timed q) (q_put q)) w in
    match a, find_container cid (e_containers (w_eng w1)) with
    | Some e, _ => (inl e, log_event (EvStop cid false) w1)
    | None, None => (inl (APIError "No such container"), log_event (EvStop cid false) w1)
    | None, Some _ =>
        (inr tt,
         log_event (EvStop cid true)
           (upd_containers
              (map_container cid (fun c => mkContainer (c_id c) (c_name c) false []
                                             (c_files c))) w1))
    end.

(** [container.remove()]: the engine refuses to remove a running
    container. *)
Definition container_remove (cid : nat) : M unit :=
  fun w =>
    let q := w_q w in
    let (a, rest) := pop None (q_remove q) in
    let w1 := set_q (mkQueues (q_run q) (q_stop q) rest (q_exec q)
                       (q_timed q) (q_put q)) w in
    match a, find_container cid (e_containers (w_eng w1)) with
    | Some e, _ => (inl e, log_event (EvRemove cid false) w1)
    | None, None => (inl (APIError "No such container"), log_event (EvRemove cid false) w1)
    | None, Some c =>
        if c_running c then
          (inl (APIError "You cannot remove a running container"),
           log_event (EvRemove cid false) w1)
        else
          (inr tt,
           log_event (EvRemove cid true)
             (upd_containers (filter (fun c' => negb (Nat.eqb (c_id c') cid))) w1))
    end.

(** [container.exec_run(cmd, workdir=...)] *)
Definition exec_run (cid : nat) (cmd : list string) : M ExecResult :=
  fun w =>
    let q := w_q w in
    let (a, rest) := pop (inr (mkExecResult 0 "")) (q_exec q) in
    let w1 := log_event (EvExec cid cmd a)
                (set_q (mkQueues (q_run q) (q_stop q) (q_remove q) rest
                          (q_timed q) (q_put q)) w) in
    match a with
    | inl e => (inl e, w1)
    | inr r => (inr r, w1)
    end.

(** [container.put_archive(path, data)]: on success every member of the
    archive is extracted into directory [path]. *)
Definition put_archive (cid : nat) (path : string) (archive : list TarEntry) : M bool :=
  fun w =>
    let q := w_q w in
    let (a, rest) := pop (inr true) (q_put q) in
    let w1 := log_event (EvPut cid path archive a)
                (set_q (mkQueues (q_run q) (q_stop q) (q_remove q) (q_exec q)
                          (q_timed q) rest) w) in
    match a with
    | inl e => (inl e, w1)
    | inr false => (inr false, w1)
    | inr true =>
        (inr true,
         upd_containers
           (map_container cid
              (fun c => mkContainer (c_id c) (c_name c) (c_running c) (c_procs c)
                          (map (fun t => ((path, t_name t), t_data t)) archive
                           ++ c_files c))) w1)
    end.

End Engine.

(* ------------------------------------------------------------------ *)
(** ** exec_run_with_timeout *)

(** [exec_run] runs on a daemon thread and the caller joins it for at
    most [timeout_seconds].  If the thread is still alive the caller
    raises [TimeoutError]; nothing stops the command, which keeps
    running in the container. *)
Definition exec_run_with_timeout (cid : nat) (command : list string)
  (timeout_seconds : Z) : M ExecResult :=
  fun w =>
    let q := w_q w in
    let (a, rest) := pop (Finishes 0 (inr (mkExecResult 0 ""))) (q_timed q) in
    let w1 := set_q (mkQueues (q_run q) (q_stop q) (q_remove q) (q_exec q)
                       rest (q_put q)) w in
    let bound := 100 * Z.to_nat timeout_seconds in
    let timed_out :=
      (inl (TimeoutError ("Command execution exceeded " ++ Z_to_string timeout_seconds
                          ++ " seconds")),
       log_event (EvTimed cid command None)
         (upd_containers
            (map_container cid
               (fun c => mkContainer (c_id c) (c_name c) (c_running c)
                           (c_procs c ++ [command]) (c_files c)))
            (snd (sleep bound w1)))) in
    match a with
    | Finishes d r =>
        if Nat.leb d bound then
          let w2 := log_event (EvTimed cid command (Some r)) (snd (sleep d w1)) in
          match r with
          | inl e => (inl e, w2)
          | inr x => (inr x, w2)
          end
        else timed_out
    | Hangs => timed_out
    end.

(* ------------------------------------------------------------------ *)
(** ** write_patch_to_container *)

Definition write_patch_to_container (cid : nat) (patch_content dest_path : string)
  : M unit :=
  patch_bytes <- py_encode patch_content;;
  mtime <- now;;
  let tarinfo := mkTarEntry (basename dest_path) (String.length patch_bytes)
                   mtime patch_bytes in
  let dest_dir := if py_truthy (dirname dest_path) then dirname dest_path else "/" in
  success <- put_archive cid dest_dir [tarinfo];;
  if success then ret tt
  else raise (RuntimeError ("Failed to write patch to " ++ dest_path)).

(* ------------------------------------------------------------------ *)
(** ** install_pytest_in_container *)

Definition pytest_check_cmd : list string :=
  ["bash"; "-c";
   "python -m pytest --version 2>/dev/null || python3 -m pytest --version 2>/dev/null"].

Definition pytest_install_cmd : list string :=
  ["bash"; "-c"; "pip install pytest 2>&1 || pip3 install pytest 2>&1"].

Definition install_pytest_in_container (cid : nat) (timeout_seconds : Z)
  : M (bool * string) :=
  check_result <- exec_run cid pytest_check_cmd;;
  if Z.eqb (exit_code check_result) 0 then
    out <- py_decode (output check_result);;
    ret (true, "pytest already installed: " ++ py_strip out)
  else
    try_except
      (install_result <- exec_run_with_timeout cid pytest_install_cmd timeout_seconds;;
       if Z.eqb (exit_code install_result) 0 then
         verify_result <- exec_run cid pytest_check_cmd;;
         if Z.eqb (exit_code verify_result) 0 then
           out <- py_decode (output verify_result);;
           ret (true, "pytest installed successfully: " ++ py_strip out)
         else ret (false, "pytest installation verification failed")
       else
         out <- (if py_truthy (output install_result)
                 then py_decode (output install_result) else ret "No output");;
         ret (false, "pytest installation failed: " ++ out))
      (fun e => if is_timeout_error e then
                  ret (false, "pytest installation timed out after "
                                ++ Z_to_string timeout_seconds ++ "s")
                else ret (false, "pytest installation error: " ++ exn_str e)).

(** [check_test_results] *)
Definition check_test_results (exit_code : Z) : bool := Z.eqb exit_code 0.

(** [get_image_name] *)
Definition get_image_name (instance_id namespace arch tag : string) : string :=
  let image_key := "sweb.eval." ++ arch ++ "." ++ py_lower instance_id in
  namespace ++ "/" ++ image_key ++ ":" ++ tag.

(* ------------------------------------------------------------------ *)
(** ** evaluate_single_instance *)

(** The lines every stage log starts with. *)
Definition log_header (title image_name : string) (test_files : list string)
  (test_cmd : string) : string :=
  title ++ nl ++ nl
  ++ "=== Image ===" ++ nl ++ image_name ++ nl ++ nl
  ++ "=== Test Files ===" ++ nl
  ++ String.concat "" (map (fun tf => "  - " ++ tf ++ nl) test_files)
  ++ nl ++ "=== Test Command ===" ++ nl
  ++ test_cmd ++ nl ++ nl.

Definition timeout_log (title image_name : string) (test_files : list string)
  (test_cmd : string) (timeout : Z) : string :=
  log_header title image_name test_files test_cmd
  ++ "=== TIMEOUT ===" ++ nl
  ++ "Test execution exceeded timeout of " ++ Z_to_string timeout ++ " seconds" ++ nl.

Definition stage_log (title image_name : string) (test_files : list string)
  (test_cmd test_output : string) (code : Z) (time : nat) (passed : bool) : string :=
  log_header title image_name test_files test_cmd
  ++ "=== Test Output ===" ++ nl
  ++ test_output
  ++ nl ++ nl ++ "=== Exit Code ===" ++ nl ++ Z_to_string code ++ nl
  ++ nl ++ "=== Test Time ===" ++ nl ++ fmt_seconds time ++ " seconds" ++ nl
  ++ nl ++ "=== All Passed ===" ++ nl ++ bool_to_string passed ++ nl.

Definition stage1_title : string := "=== Stage 1: Test with only test_patch ===".
Definition stage2_title : string :=
  "=== Stage 2: Test with both fix_patch and test_patch ===".

Definition apply_cmd (path : string) : list string :=
  ["bash"; "-c"; "cd /testbed && git apply " ++ path].

(** The parameters shared by the blocks of [evaluate_single_instance]. *)
Record Ctx : Type := mkCtx {
  x_image_name : string;
  x_logs_dir : string;
  x_container_name : string;
  x_test_patch : string;
  x_fix_patch : string;
  x_test_files : list string;
  x_test_cmd : string;
  x_timeout : Z;
  x_install_pytest : bool
}.

(** Runs the test command; [None] when [TimeoutError] was caught. *)
Definition run_tests (x : Ctx) (cid : nat) : M (option (string * Z)) :=
  try_except
    (test_result <- exec_run_with_timeout cid ["bash"; "-c"; x_test_cmd x] (x_timeout x);;
     out <- py_decode (output test_result);;
     ret (Some (out, exit_code test_result)))
    (fun e => if is_timeout_error e then ret None else raise e).

(** The optional pytest bootstrap; [false] when the stage returned. *)
Definition bootstrap (x : Ctx) (cid : nat) (st : Status) (prefix log_title log_path : string)
  : M bool :=
  if x_install_pytest x then
    '(pytest_success, pytest_message) <- install_pytest_in_container cid 300;;
    if pytest_success then ret true
    else
      update_result (with_status st (prefix ++ pytest_message));;
      write_file log_path (log_title ++ nl ++ pytest_message);;
      ret false
  else ret true.

(** Writes a patch and runs [git apply]; [false] when the stage returned. *)
Definition apply_patch (cid : nat) (patch path : string) (st : Status)
  (prefix log_title log_path : string) : M bool :=
  write_patch_to_container cid patch path;;
  apply_result <- exec_run cid (apply_cmd path);;
  if negb (Z.eqb (exit_code apply_result) 0) then
    out <- py_decode (output apply_result);;
    update_result (with_status st (prefix ++ out));;
    out' <- py_decode (output apply_result);;
    write_file log_path (log_title ++ nl ++ out');;
    ret false
  else ret true.

Section Evaluate.
Variable env : Env.

(** Stage 1: test patch only; [true] when evaluation goes on to stage 2. *)
Definition stage1 (x : Ctx) : M bool :=
  let test_only_log_path := path_join (x_logs_dir x) "test_only.log" in
  test_only_start <- now;;
  cid <- containers_run env (x_container_name x);;
  set_container (Some cid);;
  sleep 100;;
  ok <- bootstrap x cid pytest_install_failed "Failed to install pytest: "
          "=== Failed to install pytest ===" test_only_log_path;;
  if negb ok then ret false else
  ok <- apply_patch cid (x_test_patch x) "/tmp/test.patch" test_patch_apply_failed
          "Failed to apply test_patch: " "=== Failed to apply test_patch ==="
          test_only_log_path;;
  if negb ok then ret false else
  tr <- run_tests x cid;;
  match tr with
  | None =>
      update_result (with_status test_only_timeout
        ("Stage 1 test execution timed out after " ++ Z_to_string (x_timeout x) ++ "s"));;
      write_file test_only_log_path
        (timeout_log stage1_title (x_image_name x) (x_test_files x) (x_test_cmd x)
           (x_timeout x));;
      ret false
  | Some (test_only_output, test_only_exit_code) =>
      t <- now;;
      update_result (with_test_only (t - test_only_start)
                       (check_test_results test_only_exit_code));;
      r <- get_result;;
      write_file test_only_log_path
        (stage_log stage1_title (x_image_name x) (x_test_files x) (x_test_cmd x)
           test_only_output test_only_exit_code (r_test_only_time r)
           (r_test_only_passed r));;
      container_stop cid;;
      container_remove cid;;
      set_container None;;
      ret true
  end.

(** Stage 2: fix patch, then test patch; [true] when it completed. *)
Definition stage2 (x : Ctx) : M bool :=
  let both_patches_log_path := path_join (x_logs_dir x) "both_patches.log" in
  both_patches_start <- now;;
  cid <- containers_run env (x_container_name x);;
  set_container (Some cid);;
  sleep 100;;
  ok <- bootstrap x cid pytest_install_failed_stage2
          "Failed to install pytest in stage 2: "
          "=== Failed to install pytest (stage 2) ===" both_patches_log_path;;
  if negb ok then ret false else
  ok <- apply_patch cid (x_fix_patch x) "/tmp/fix.patch" fix_patch_apply_failed
          "Failed to apply fix_patch: " "=== Failed to apply fix_patch ==="
          both_patches_log_path;;
  if negb ok then ret false else
  ok <- apply_patch cid (x_test_patch x) "/tmp/test.patch" test_patch_apply_failed_stage2
          "Failed to apply test_patch in stage 2: "
          "=== Failed to apply test_patch (stage 2) ===" both_patches_log_path;;
  if negb ok then ret false else
  tr <- run_tests x cid;;
  match tr with
  | None =>
      update_result (with_status both_patches_timeout
        ("Stage 2 test execution timed out after " ++ Z_to_string (x_timeout x) ++ "s"));;
      write_file both_patches_log_path
        (timeout_log stage2_title (x_image_name x) (x_test_files x) (x_test_cmd x)
           (x_timeout x));;
      ret false
  | Some (both_patches_output, both_patches_exit_code) =>
      t <- now;;
      update_result (with_both_patches (t - both_patches_start)
                       (check_test_results both_patches_exit_code));;
      r <- get_result;;
      write_file both_patches_log_path
        (stage_log stage2_title (x_image_name x) (x_test_files x) (x_test_cmd x)
           both_patches_output both_patches_exit_code (r_both_patches_time r)
           (r_both_patches_passed r));;
      ret true
  end.

(** Lines 519-534: the final classification. *)
Definition classify (r : Result) : Result :=
  let r := with_env_pass (r_both_patches_passed r) r in
  let test_only_failed := negb (r_test_only_passed r) in
  let r := with_f2p_pass (test_only_failed && r_both_patches_passed r) r in
  if r_f2p_pass r then
    with_status f2p_passed "F2P passed: test_only failed, both_patches passed" r
  else if r_env_pass r then
    with_status env_passed "Env passed: both_patches passed (but test_only also passed)" r
  else with_status failed "Both_patches stage failed" r.

Definition determine_final (x : Ctx) : M unit :=
  update_result (fun r =>
    classify (with_logs (path_join (x_logs_dir x) "test_only.log")
                        (path_join (x_logs_dir x) "both_patches.log") r)).

(** The body of the [try]. *)
Definition evaluate_body (x : Ctx) : M unit :=
  go <- stage1 x;;
  if go then
    go2 <- stage2 x;;
    if go2 then determine_final x else ret tt
  else ret tt.

(** The [except] clauses. *)
Definition evaluate_handlers (instance_id : string) (x : Ctx) (e : exn) : M unit :=
  if is_image_not_found e then
    update_result (with_status no_image ("Docker image not found: " ++ x_image_name x))
  else
    update_result (with_status error ("Unexpected error: " ++ exn_str e));;
    let error_log_path := path_join (x_logs_dir x) "error.log" in
    ts <- now;;
    write_file error_log_path
      ("=== Unexpected Error ===" ++ nl ++ "Error: " ++ exn_str e ++ nl
       ++ "Instance: " ++ instance_id ++ nl
       ++ "Timestamp: " ++ nat_to_string ts ++ nl);;
    update_result (with_error_log error_log_path).

(** The [finally] clause: errors of [stop] and [remove] are swallowed. *)
Definition cleanup : M unit :=
  c <- get_container;;
  match c with
  | None => ret tt
  | Some cid =>
      try_except (container_stop cid) (fun _ => ret tt);;
      try_except (container_remove cid) (fun _ => ret tt)
  end.

Definition evaluate_single_instance (instance_id output_dir namespace arch tag : string)
  (timeout : Z) (install_pytest : bool) : M Result :=
  ts <- now;;
  let result := init_result instance_id ts in
  let instance_dir := path_join output_dir instance_id in
  let hi := env_host env instance_dir in
  if negb (hi_dir hi) then
    ret (with_status no_instance_dir "Instance directory does not exist" result)
  else if negb (hi_json hi) then
    ret (with_status no_instance_json "instance.json not found" result)
  else
  instance_data <- lift_sum (hi_data hi);;
  let test_patch := d_test_patch instance_data in
  let fix_patch := d_patch instance_data in
  if negb (py_truthy test_patch) then
    ret (with_status no_test_patch "test_patch is empty" result)
  else
  let test_files := extract_test_files_from_patch test_patch in
  match test_files with
  | [] => ret (with_status no_test_files "No test files found in test_patch" result)
  | _ :: _ =>
  let image_name := get_image_name instance_id namespace arch tag in
  let result := with_image image_name result in
  docker_from_env env;;
  found <- try_except (images_get env image_name;; ret true)
             (fun e => if is_image_not_found e then ret false else raise e);;
  if negb found then
    ret (with_status no_image ("Docker image not found: " ++ image_name) result)
  else
  let logs_dir := path_join instance_dir "evaluation_logs" in
  let test_cmd := "cd /testbed && pytest -rA " ++ String.concat " " test_files ++ " -v" in
  t <- now;;
  let container_name := "eval_" ++ replace_slash instance_id ++ "_"
                          ++ nat_to_string (t / 100) in
  let x := mkCtx image_name logs_dir container_name test_patch fix_patch test_files
             test_cmd timeout install_pytest in
  set_container None;;
  update_result (fun _ => result);;
  try_finally (try_except (evaluate_body x) (evaluate_handlers instance_id x)) cleanup;;
  get_result
  end.

End Evaluate.

Definition start_world (q : Queues) (clock : nat) : World :=
  mkWorld (mkEngine clock 0 []) q [] [] None (init_result "" 0).

(* ------------------------------------------------------------------ *)
(** ** Observations on traces *)

(** From here on [++] is list concatenation; string literals are
    marked with [%string]. *)
Close Scope string_scope.

Fixpoint cmd_eqb (a b : list string) : bool :=
  match a, b with
  | [], [] => true
  | x :: a', y :: b' => String.eqb x y && cmd_eqb a' b'
  | _, _ => false
  end.

(** The outcomes of the bounded runs other than the pytest installation,
    oldest first; [None] is a run that exceeded its bound. *)
Fixpoint test_runs (tr : list event) : list (option (exn + ExecResult)) :=
  match tr with
  | [] => []
  | EvTimed _ cmd o :: tr' =>
      if cmd_eqb cmd pytest_install_cmd then test_runs tr' else test_runs tr' ++ [o]
  | _ :: tr' => test_runs tr'
  end.

(** The outcome of the oldest [exec_run] of [cmd]. *)
Fixpoint first_exec (cmd : list string) (tr : list event) : option (exn + ExecResult) :=
  match tr with
  | [] => None
  | EvExec _ c o :: tr' =>
      match first_exec cmd tr' with
      | Some o' => Some o'
      | None => if cmd_eqb c cmd then Some o else None
      end
  | _ :: tr' => first_exec cmd tr'
  end.

(** Whether the pytest installation command exceeded its bound. *)
Definition install_timed_out (tr : list event) : bool :=
  existsb (fun ev => match ev with
                     | EvTimed _ c None => cmd_eqb c pytest_install_cmd
                     | _ => false
                     end) tr.

(** Events that neither create nor stop nor remove a container. *)
Definition ev_neutral (ev : event) : bool :=
  match ev with EvRun _ | EvStop _ _ | EvRemove _ _ => false | _ => true end.

(** The containers that exist after a trace: created by [EvRun], gone
    after a successful [EvRemove]. *)
Fixpoint live (tr : list event) : list nat :=
  match tr with
  | [] => []
  | EvRun c :: tr' => c :: live tr'
  | EvRemove c true :: tr' => filter (fun c' => negb (Nat.eqb c' c)) (live tr')
  | _ :: tr' => live tr'
  end.

(** At every point of the trace at most one container exists. *)
Definition at_most_one_live (tr : list event) : Prop :=
  forall pre post, tr = pre ++ post -> length (live post) <= 1.

(** Stopping and removing [c] were both attempted. *)
Definition attempted (c : nat) (tr : list event) : Prop :=
  (exists ok, In (EvStop c ok) tr) /\ (exists ok, In (EvRemove c ok) tr).

Definition slot_list (s : option nat) : list nat :=
  match s with Some c => [c] | None => [] end.

(** The container discipline, given the container the evaluator's
    [container] variable holds: at most one container at a time, only
    that one may be live, and every other container created has had its
    stop and removal attempted. *)
Definition container_inv (tr : list event) (slot : option nat) : Prop :=
  at_most_one_live tr /\ incl (live tr) (slot_list slot) /\
  forall c, In (EvRun c) tr -> slot = Some c \/ attempted c tr.

(** A stage-timeout status leaves that stage's time and flag untouched. *)
Definition timeout_fields_ok (r : Result) : Prop :=
  (r_status r = test_only_timeout ->
     r_test_only_time r = 0 /\ r_test_only_passed r = false) /\
  (r_status r = both_patches_timeout ->
     r_both_patches_time r = 0 /\ r_both_patches_passed r = false).

(** A result record as [evaluate_single_instance] starts the stages
    with: no stage time or flag recorded, no timeout status. *)
Definition fresh_result (r : Result) : Prop :=
  r_test_only_time r = 0 /\ r_test_only_passed r = false /\
  r_both_patches_time r = 0 /\ r_both_patches_passed r = false /\
  r_status r <> test_only_timeout /\ r_status r <> both_patches_timeout.

(* ------------------------------------------------------------------ *)
(** ** The orchestrator [main] *)

(** The counters of [results]; [results['details']] is not modelled. *)
Record Stats : Type := mkStats {
  s_total : nat;
  s_env_passed : nat;
  s_f2p_passed : nat;
  s_failed : nat;
  s_no_image : nat;
  s_error : nat
}.

Definition init_stats (total : nat) : Stats := mkStats total 0 0 0 0 0.

(** [# Update counts] for a returned result record. *)
Definition count_result (s : Stats) (result : Result) : Stats :=
  if r_f2p_pass result then
    mkStats (s_total s) (s_env_passed s) (S (s_f2p_passed s)) (s_failed s)
      (s_no_image s) (s_error s)
  else if r_env_pass result then
    mkStats (s_total s) (S (s_env_passed s)) (s_f2p_passed s) (s_failed s)
      (s_no_image s) (s_error s)
  else
    let s := mkStats (s_total s) (s_env_passed s) (s_f2p_passed s) (S (s_failed s))
               (s_no_image s) (s_error s) in
    if Status_eqb (r_status result) no_image then
      mkStats (s_total s) (s_env_passed s) (s_f2p_passed s) (s_failed s)
        (S (s_no_image s)) (s_error s)
    else if Status_eqb (r_status result) error then
      mkStats (s_total s) (s_env_passed s) (s_f2p_passed s) (s_failed s)
        (s_no_image s) (S (s_error s))
    else s.

(** The [except Exception] branch of the parallel loop. *)
Definition count_exception (s : Stats) : Stats :=
  mkStats (s_total s) (s_env_passed s) (s_f2p_passed s) (S (s_failed s))
    (s_no_image s) (S (s_error s)).

(** The sequential loop: an exception of [evaluate_single_instance]
    leaves [main]. *)
Fixpoint run_sequential (s : Stats) (outcomes : list (exn + Result)) : exn + Stats :=
  match outcomes with
  | [] => inr s
  | inl e :: _ => inl e
  | inr r :: rest => run_sequential (count_result s r) rest
  end.

(** The parallel loop over [as_completed(futures)]: [outcomes] are the
    futures' outcomes in completion order. *)
Fixpoint run_parallel (s : Stats) (outcomes : list (exn + Result)) : Stats :=
  match outcomes with
  | [] => s
  | inl _ :: rest => run_parallel (count_exception s) rest
  | inr r :: rest => run_parallel (count_result s r) rest
  end.

(** How [main] ends: it returns an exit code, having written the
    statistics or not, or an exception leaves it. *)
Inductive MainOutcome : Type :=
| Returned (code : nat) (written : option Stats)
| Raised (e : exn).

(** The process exit status of [exit(main())]; an uncaught exception
    exits with status 1. *)
Definition exit_status (o : MainOutcome) : nat :=
  match o with Returned c _ => c | Raised _ => 1 end.

(** [main] after its arguments are parsed (lines 634-830).
    [output_dir_exists] is [os.path.exists(output_dir)];
    [listing_error] is the exception [os.listdir(output_dir)] raises
    when [main] lists the directory (line 659; [None] when it succeeds
    or when instance ids are given); [outcomes] holds one outcome per
    instance chosen (by [select_instances] below), in completion order when [parallel], which is
    [args.parallel > 1]; [write_error] is the exception that opening or
    writing the results file in the parent of [output_dir] raises
    (line 806).  [Returned c (Some s)] means the statistics [s] were
    written. *)
Definition main_model (output_dir_exists : bool) (listing_error : option exn)
  (parallel : bool) (outcomes : list (exn + Result)) (write_error : option exn)
  : MainOutcome :=
  if negb output_dir_exists then Returned 1 None
  else
    match listing_error with
    | Some e => Raised e
    | None =>
        let s0 := init_stats (length outcomes) in
        let finish s :=
          match write_error with
          | Some e => Raised e
          | None => Returned (if Nat.eqb (s_failed s) 0 then 0 else 1) (Some s)
          end in
        if parallel then finish (run_parallel s0 outcomes)
        else match run_sequential s0 outcomes with
             | inl e => Raised e
             | inr s => finish s
             end
    end.

(* ------------------------------------------------------------------ *)
(** ** Choosing the instances to evaluate (lines 654-671 of [main]) *)

(** [sorted(os.listdir(output_dir))]: insertion sort on the UTF-8
    bytes, whose order is the code point order Python sorts by. *)
Fixpoint insert_sorted (x : string) (l : list string) : list string :=
  match l with
  | [] => [x]
  | y :: l' => if String.leb x y then x :: l else y :: insert_sorted x l'
  end.

Definition py_sorted (l : list string) : list string := fold_right insert_sorted [] l.

(** [l[:stop]] *)
Definition py_slice_to {A} (l : list A) (stop : Z) : list A :=
  firstn (if (0 <=? stop)%Z then Z.to_nat stop else length l - Z.to_nat (- stop)) l.

(** One iteration of [for item in sorted(os.listdir(output_dir))];
    [isdir] and [exists_] are [os.path.isdir] and [os.path.exists]. *)
Definition scan_item (output_dir : string) (isdir exists_ : string -> bool)
  (instances_to_eval : list string) (item : string) : list string :=
  let item_path := path_join output_dir item in
  if isdir item_path then
    let instance_json := path_join item_path "instance.json"%string in
    if exists_ instance_json then instances_to_eval ++ [item] else instances_to_eval
  else instances_to_eval.

(** [instances_to_eval] after [args.instances] and [args.max_instances]
    are applied: an empty [instances] is [args.instances] being falsy,
    [max_instances] is [None] when the option is absent. *)
Definition select_instances (output_dir : string) (instances : list string)
  (listing : list string) (isdir exists_ : string -> bool) (max_instances : option Z)
  : list string :=
  let instances_to_eval :=
    match instances with
    | [] => fold_left (scan_item output_dir isdir exists_) (py_sorted listing) []
    | _ :: _ => instances
    end in
  match max_instances with
  | Some m => if Z.eqb m 0 then instances_to_eval else py_slice_to instances_to_eval m
  | None => instances_to_eval
  end.

(** Lines 779-783 of [main]: where the detailed results are saved. *)
Definition result_file (output_dir : string) : string :=
  let output_dir_name := basename (rstrip_slash output_dir) in
  path_join (dirname output_dir)
    ("evaluation_results_" ++ output_dir_name ++ ".json")%string.

(* ------------------------------------------------------------------ *)
(** ** Reading aids for the statements *)

(** The classification table over [(stage1.passed, stage2.passed)] as
    the specification words it. *)
Definition spec_status_table (p1 p2 : bool) : Status :=
  match p1, p2 with
  | false, true => f2p_passed
  | true, true => env_passed
  | _, _ => failed
  end.

(** A [diff --git] line with at least three fields, and the path the
    scan takes from it: the third field without its first two
    characters, i.e. the [a/] (old) path. *)
Definition is_diff_header (line : string) : bool :=
  py_startswith line "diff --git"%string && Nat.leb 3 (length (py_split line)).

Definition header_old_path (line : string) : string :=
  py_slice_from 2 (nth 2 (py_split line) ""%string).

Definition is_test_path (file_path : string) : bool :=
  py_contains "test"%string (py_lower file_path) && py_endswith file_path ".py"%string.

(** The specification's reading of the scan: the new-file ([b/]) path,
    the fourth field without its first two characters, of every line
    that starts with [diff --git]. *)
Definition header_new_path (line : string) : string :=
  py_slice_from 2 (nth 3 (py_split line) ""%string).

Definition spec_extract_test_files (test_patch : string) : list string :=
  filter is_test_path
    (map header_new_path
       (filter (fun line => py_startswith line "diff --git"%string)
          (py_split_on "010"%char test_patch))).

(** Which counter of [main] an instance's outcome goes to. *)
Definition passed_flags (r : Result) : bool := r_f2p_pass r || r_env_pass r.

Definition counts_f2p (o : exn + Result) : bool :=
  match o with inr r => r_f2p_pass r | inl _ => false end.
Definition counts_env (o : exn + Result) : bool :=
  match o with inr r => negb (r_f2p_pass r) && r_env_pass r | inl _ => false end.
Definition counts_failed (o : exn + Result) : bool :=
  match o with inr r => negb (passed_flags r) | inl _ => true end.
Definition counts_no_image (o : exn + Result) : bool :=
  match o with
  | inr r => negb (passed_flags r) && Status_eqb (r_status r) no_image
  | inl _ => false
  end.
Definition counts_error (o : exn + Result) : bool :=
  match o with
  | inr r => negb (passed_flags r) && Status_eqb (r_status r) error
  | inl _ => true
  end.

(* ------------------------------------------------------------------ *)
(** ** Concrete inputs *)

(** A host with one instance, [demo], whose test patch touches one test
    file, and a client that has [demo]'s image. *)
Definition demo_patch : string :=
  ("diff --git a/tests/test_x.py b/tests/test_x.py" ++ nl ++ "+assert True")%string.

Definition demo_host (p : string) : HostInstance :=
  mkHostInstance true true (inr (mkDescriptor demo_patch "fix"%string)).

Definition demo_image : string := "ns/sweb.eval.x86_64.demo:latest"%string.

Definition demo_env : Env := mkEnv demo_host None [demo_image] [] (fun _ => None).

Definition demo_queues (execs : list (exn + ExecResult)) (timed : list timed_resp) : Queues :=
  mkQueues [] [] [] execs timed [].

Definition demo_run (env : Env) (install : bool) (q : Queues) : (exn + Result) * World :=
  evaluate_single_instance env "demo" "/out" "ns" "x86_64" "latest" 60 install
    (start_world q 0).

(** The context [evaluate_single_instance] has built for [demo]. *)
Definition demo_ctx : Ctx :=
  mkCtx "ns/sweb.eval.x86_64.demo:latest" "/out/demo/evaluation_logs" "eval_demo_0"
    "" "" [] "pytest" 60 false.

(** Relational specifications of monadic computations. *)
Definition triple {A} (m : M A) (R : World -> exn + A -> World -> Prop) : Prop :=
  forall w r w', m w = (r, w') -> R w r w'.

Arguments ret {A} a w /.
Arguments bind {A B} m k w /.
Arguments raise {A} e w /.
Arguments try_except {A} m h w /.
Arguments try_finally {A} m fin w /.
Arguments modify f w /.
Arguments gets {A} f w /.
Arguments containers_run env name w /.
Arguments container_stop cid w /.
Arguments container_remove cid w /.
Arguments exec_run cid cmd w /.
Arguments put_archive cid path archive w /.
Arguments exec_run_with_timeout cid command timeout_seconds w /.

Arguments lift_sum {A} x w /.
Arguments docker_from_env env w /.
Arguments images_get env name w /.
Arguments py_decode b w /.
Arguments py_encode s w /.
Arguments is_timeout_error !e.
Arguments is_image_not_found !e.

Lemma triple_intro {A} (m : M A) (R : World -> exn + A -> World -> Prop) :
  (forall w, match m w with (r, w') => R w r w' end) -> triple m R.
Proof. intros H w r w' E; specialize (H w); rewrite E in H; exact H. Qed.

Ltac unfold_prims :=
  unfold get_result, update_result, get_container, set_container, now, sleep,
    write_file in *.

Ltac symcbn :=
  cbn -[String.append extract_test_files_from_patch get_image_name path_join
        py_strip Z_to_string nat_to_string utf8_valid has_surrogate Nat.mul
        Nat.div Nat.sub Nat.leb String.length
        replace_slash String.concat log_header timeout_log stage_log exn_str
        find_container map_container cmd_eqb apply_cmd
        bootstrap apply_patch run_tests stage1 stage2 evaluate_body
        evaluate_handlers cleanup].

Ltac symcbn_in H :=
  cbn -[String.append extract_test_files_from_patch get_image_name path_join
        py_strip Z_to_string nat_to_string utf8_valid has_surrogate Nat.mul
        Nat.div Nat.sub Nat.leb String.length
        replace_slash String.concat log_header timeout_log stage_log exn_str
        find_container map_container cmd_eqb apply_cmd
        bootstrap apply_patch run_tests stage1 stage2 evaluate_body
        evaluate_handlers cleanup] in H.

Ltac head_of t := lazymatch t with ?f _ => head_of f | _ => t end.

(** The blocks that symbolic execution leaves opaque: their runs are
    described by their own specifications. *)
Ltac is_block t :=
  let h := head_of t in
  lazymatch h with
  | bootstrap => idtac | apply_patch => idtac | run_tests => idtac
  | stage1 => idtac | stage2 => idtac | evaluate_body => idtac
  | evaluate_handlers => idtac | cleanup => idtac
  end.

(** Symbolic execution: reduce, then case on the innermost stuck [match].
    A run of an opaque block is named by a fresh world and handed to
    [hook] with its equation. *)
Ltac symex_with hook :=
  unfold_prims;
  repeat (symcbn;
          match goal with
          | |- context [match ?x with _ => _ end] =>
              lazymatch x with
              | context [match _ with _ => _ end] => fail
              | _ => lazymatch type of x with
                     | ((_ * World)%type) =>
                         is_block x;
                         let Hb := fresh "Hb" in
                         destruct x as [?r ?w] eqn:Hb; hook Hb
                     | _ => destruct x eqn:?
                     end
              end
          end);
  symcbn.

Ltac symex := symex_with ltac:(fun _ => idtac).

Ltac finish_eq :=
  match goal with
  | |- (_, _) = (_, _) -> _ => let H := fresh in intros H; injection H; clear H; intros; subst
  end.

(** Opens a triple: the run is put in the goal as a [match] on its
    outcome, and the initial world is split into its fields. *)
Ltac triple_start :=
  apply triple_intro;
  let w := fresh "w" in
  intros w;
  destruct w as [[?clk ?nid ?cs] [?qr ?qs ?qre ?qe ?qt ?qp] ?fs ?tr ?cont
                 [?iid ?st ?ep ?fp ?msg ?t1 ?t2 ?p1 ?p2 ?ts ?img ?l1 ?l2 ?el]].

(** The same, keeping the result record abstract. *)
Ltac triple_start_r :=
  apply triple_intro;
  let w := fresh "w" in
  intros w;
  destruct w as [[?clk ?nid ?cs] [?qr ?qs ?qre ?qe ?qt ?qp] ?fs ?tr ?cont ?res].

(** The events prepended to [tr] in [t]. *)
Ltac ext_of t tr :=
  lazymatch t with
  | tr => constr:(@nil event)
  | ?a :: ?t' => let e := ext_of t' tr in constr:(a :: e)
  | ?e ++ tr => e
  | ?e ++ ?t' => let e' := ext_of t' tr in constr:(e ++ e')
  end.

Ltac give_ext :=
  symcbn;
  lazymatch goal with
  | |- exists ext, ?t = ext ++ ?tr /\ _ =>
      let e := ext_of t tr in
      exists e; split; [cbn [app]; rewrite <- ?app_assoc; cbn [app]; reflexivity|]
  end.

(* ------------------------------------------------------------------ *)
(** ** Facts about the observations *)


Lemma cmd_eqb_refl (c : list string) : cmd_eqb c c = true.
Proof. induction c as [|a c IH]; cbn; [reflexivity|]. rewrite String.eqb_refl; exact IH. Qed.

Lemma cmd_eqb_eq (a b : list string) : cmd_eqb a b = true -> a = b.
Proof.
  revert b; induction a as [|x a IH]; intros [|y b]; cbn; try discriminate; auto.
  intros H; apply andb_prop in H as [H1 H2].
  apply String.eqb_eq in H1; subst; f_equal; auto.
Qed.


Lemma cmd_check_apply (p : string) : cmd_eqb pytest_check_cmd (apply_cmd p) = false.
Proof. reflexivity. Qed.

Lemma cmd_install_apply (p : string) : cmd_eqb pytest_install_cmd (apply_cmd p) = false.
Proof. reflexivity. Qed.

Lemma apply_cmd_neq (p q : string) :
  String.eqb p q = false -> cmd_eqb (apply_cmd q) (apply_cmd p) = false.
Proof.
  intros H. destruct (cmd_eqb (apply_cmd q) (apply_cmd p)) eqn:E; [|reflexivity].
  apply cmd_eqb_eq in E; unfold apply_cmd in E; injection E as E.
  subst; rewrite String.eqb_refl in H; discriminate.
Qed.

Ltac close_post :=
  repeat (symcbn;
          rewrite ?cmd_eqb_refl, ?cmd_check_apply, ?cmd_install_apply;
          match goal with
          | |- _ /\ _ => split
          | |- _ -> _ => intro
          | |- exists m, ?l = with_status _ m ?r => eexists; reflexivity
          | H : Some _ = Some _ |- _ => injection H as H; subst
          | H : inr _ = inr _ |- _ => injection H as H; subst
          | H : inl _ = inr _ |- _ => discriminate H
          | H : inr _ = inl _ |- _ => discriminate H
          | H : None = Some _ |- _ => discriminate H
          | H : Some _ = None |- _ => discriminate H
          | H : false = true |- _ => discriminate H
          | H : true = false |- _ => discriminate H
          | H : ?a <> ?a |- _ => exfalso; exact (H eq_refl)
          | H : String.eqb ?p ?q = false |- context [cmd_eqb (apply_cmd ?q) (apply_cmd ?p)] =>
              rewrite (apply_cmd_neq p q H)
          | H : negb (Z.eqb _ _) = false |- _ => apply negb_false_iff, Z.eqb_eq in H
          | H : negb (Z.eqb _ _) = true |- _ => apply negb_true_iff, Z.eqb_neq in H
          | H : Z.eqb _ _ = true |- _ => apply Z.eqb_eq in H
          | H : Z.eqb _ _ = false |- _ => apply Z.eqb_neq in H
          | |- exists er, Some _ = Some (inr er) /\ _ => eexists; split; [reflexivity|]
          end);
  try reflexivity; try congruence;
  try solve [repeat (first [left; reflexivity | right])].

Lemma bootstrap_spec x cid st prefix lt lp :
  triple (bootstrap x cid st prefix lt lp) (fun w r w' =>
    exists ext, w_trace w' = ext ++ w_trace w /\
      forallb ev_neutral ext = true /\ test_runs ext = [] /\
      (forall p, first_exec (apply_cmd p) ext = None) /\
      w_container w' = w_container w /\
      (r = inr false -> exists msg, w_result w' = with_status st msg (w_result w)) /\
      (r <> inr false -> w_result w' = w_result w) /\
      (install_timed_out ext = true -> r = inr false)).
Proof.
  triple_start. unfold bootstrap, install_pytest_in_container.
  symex; give_ext; close_post.
Qed.

Lemma apply_patch_spec cid patch path st prefix lt lp :
  triple (apply_patch cid patch path st prefix lt lp) (fun w r w' =>
    exists ext, w_trace w' = ext ++ w_trace w /\
      forallb ev_neutral ext = true /\ test_runs ext = [] /\
      install_timed_out ext = false /\
      (forall p, String.eqb p path = false -> first_exec (apply_cmd p) ext = None) /\
      w_container w' = w_container w /\
      (r = inr false -> exists msg, w_result w' = with_status st msg (w_result w)) /\
      (r <> inr false -> w_result w' = w_result w) /\
      (r = inr true -> exists er, first_exec (apply_cmd path) ext = Some (inr er) /\
                                  exit_code er = 0%Z) /\
      (forall er, first_exec (apply_cmd path) ext = Some (inr er) ->
         exit_code er <> 0%Z -> utf8_valid (output er) = true ->
         r = inr false /\
         w_result w' = with_status st (prefix ++ output er)%string (w_result w) /\
         In (EvWrite lp (lt ++ nl ++ output er)%string) ext) /\
      (forall er, first_exec (apply_cmd path) ext = Some (inr er) ->
         exit_code er <> 0%Z -> utf8_valid (output er) = false ->
         r = inl UnicodeDecodeError)).
Proof.
  triple_start. unfold apply_patch, write_patch_to_container.
  symex; give_ext; close_post.
Qed.

Lemma run_tests_spec x cid :
  triple (run_tests x cid) (fun w r w' =>
    exists o, w_trace w' = [EvTimed cid ["bash"; "-c"; x_test_cmd x]%string o] ++ w_trace w /\
      w_container w' = w_container w /\ w_result w' = w_result w /\
      (o = None -> r = inr None) /\
      (forall er, o = Some (inr er) -> utf8_valid (output er) = true ->
                  r = inr (Some (output er, exit_code er))) /\
      (forall v, r = inr (Some v) ->
                 exists er, o = Some (inr er) /\ v = (output er, exit_code er) /\
                            utf8_valid (output er) = true)).
Proof.
  triple_start. unfold run_tests.
  symex; (eexists; split; [reflexivity|]); close_post.
  all: try (eexists; split; [reflexivity|split; [reflexivity|assumption]]).
Qed.


(* ------------------------------------------------------------------ *)
(** ** The container discipline on traces *)

Lemma ami_nil : at_most_one_live [].
Proof. intros pre post H; destruct pre; [|discriminate]; cbn in H; subst; cbn; lia. Qed.

Lemma ami_cons ev tr :
  at_most_one_live tr -> length (live (ev :: tr)) <= 1 -> at_most_one_live (ev :: tr).
Proof.
  intros H Hl pre post E; destruct pre as [|p pre]; cbn in E.
  - subst; exact Hl.
  - injection E as -> E; exact (H pre post E).
Qed.

Lemma live_neutral_app ext tr :
  forallb ev_neutral ext = true -> live (ext ++ tr) = live tr.
Proof.
  induction ext as [|ev ext IH]; cbn; [auto|].
  intros H; apply andb_prop in H as [H1 H2].
  destruct ev; try discriminate; cbn; auto.
Qed.

Lemma ami_neutral_app ext tr :
  forallb ev_neutral ext = true -> at_most_one_live tr -> at_most_one_live (ext ++ tr).
Proof.
  induction ext as [|ev ext IH]; cbn; [auto|].
  intros H Ha; apply andb_prop in H as [H1 H2].
  apply ami_cons; [auto|].
  replace (live (ev :: ext ++ tr)) with (live tr); [exact (Ha [] tr eq_refl)|].
  symmetry; apply (live_neutral_app (ev :: ext)); cbn; rewrite H1, H2; reflexivity.
Qed.

Lemma ci_neutral ext tr s :
  forallb ev_neutral ext = true -> container_inv tr s -> container_inv (ext ++ tr) s.
Proof.
  intros Hn (Ha & Hl & Hr); split; [|split].
  - apply ami_neutral_app; auto.
  - rewrite live_neutral_app; auto.
  - intros c Hc; apply in_app_or in Hc as [Hc|Hc].
    + exfalso; revert Hc; induction ext as [|ev ext IH]; cbn in *; [auto|].
      apply andb_prop in Hn as [H1 H2]; intros [E|E]; [subst; discriminate|auto].
    + destruct (Hr c Hc) as [E|((ok1 & H1) & (ok2 & H2))]; [left; auto|right].
      split; [exists ok1|exists ok2]; apply in_or_app; right; auto.
Qed.

Lemma ci_neutral1 ev tr s :
  ev_neutral ev = true -> container_inv tr s -> container_inv (ev :: tr) s.
Proof. intros H; apply (ci_neutral [ev]); cbn; rewrite H; reflexivity. Qed.

Lemma ci_run c tr : container_inv tr None -> container_inv (EvRun c :: tr) (Some c).
Proof.
  intros (Ha & Hl & Hr).
  assert (E : live tr = []) by (destruct (live tr) as [|a l]; [auto|]; destruct (Hl a (or_introl eq_refl))).
  split; [|split].
  - apply ami_cons; auto; cbn; rewrite E; cbn; lia.
  - cbn; rewrite E; intros a Ha'; exact Ha'.
  - intros c' [H|H]; [injection H as ->; left; reflexivity|].
    destruct (Hr c' H) as [H'|((ok1 & H1) & (ok2 & H2))]; [discriminate|right].
    split; [exists ok1|exists ok2]; right; auto.
Qed.

Lemma length_filter_le {A} (f : A -> bool) (l : list A) : length (filter f l) <= length l.
Proof. induction l as [|a l IH]; cbn; [lia|]; destruct (f a); cbn; lia. Qed.

Lemma ci_attempt ev c tr :
  (exists ok, ev = EvStop c ok) \/ (exists ok, ev = EvRemove c ok) ->
  container_inv tr (Some c) -> container_inv (ev :: tr) (Some c).
Proof.
  intros Hev (Ha & Hl & Hr).
  assert (Hlive : incl (live (ev :: tr)) (live tr) /\
                  length (live (ev :: tr)) <= length (live tr)).
  { destruct Hev as [(ok & ->)|(ok & ->)]; cbn; [split; [intros a; auto|lia]|].
    destruct ok; [|split; [intros a; auto|lia]].
    split; [intros a Hin; apply filter_In in Hin; tauto|apply length_filter_le]. }
  destruct Hlive as [Hli Hle].
  split; [|split].
  - apply ami_cons; auto. pose proof (Ha [] tr eq_refl); cbn in *; lia.
  - intros a Hin; apply Hl, Hli, Hin.
  - intros c' [H|H]; [destruct Hev as [(ok & ->)|(ok & ->)]; discriminate|].
    destruct (Hr c' H) as [H'|((ok1 & H1) & (ok2 & H2))]; [left; auto|right].
    split; [exists ok1|exists ok2]; right; auto.
Qed.

Lemma ci_stop c ok tr : container_inv tr (Some c) -> container_inv (EvStop c ok :: tr) (Some c).
Proof. apply ci_attempt; left; eauto. Qed.

Lemma ci_remove c ok tr : container_inv tr (Some c) -> container_inv (EvRemove c ok :: tr) (Some c).
Proof. apply ci_attempt; right; eauto. Qed.

(** After a successful removal, and a stop attempt, the slot may be
    cleared. *)
Lemma ci_release c tr :
  (exists ok, In (EvStop c ok) tr) ->
  container_inv (EvRemove c true :: tr) (Some c) -> container_inv (EvRemove c true :: tr) None.
Proof.
  intros Hs (Ha & Hl & Hr); split; [|split]; [auto| |].
  - intros a Hin. pose proof Hin as Hin'. apply Hl in Hin'. cbn in Hin, Hin'.
    destruct Hin' as [<-|[]]. apply filter_In in Hin as [_ Hf].
    rewrite Nat.eqb_refl in Hf; discriminate.
  - intros c' Hc; right. destruct (Hr c' Hc) as [E|E]; [|exact E].
    injection E as <-. destruct Hs as (ok & Hs).
    split; [exists ok; right; exact Hs|exists true; left; reflexivity].
Qed.

(** Once the slot is empty, or its container's stop and removal were
    attempted, every container created has had both attempted. *)
Lemma ci_all_attempted_none tr :
  container_inv tr None -> forall c, In (EvRun c) tr -> attempted c tr.
Proof. intros (_ & _ & Hr) c Hc; destruct (Hr c Hc) as [E|E]; [discriminate|exact E]. Qed.

Lemma ci_all_attempted_some c tr :
  container_inv tr (Some c) -> attempted c tr ->
  forall c', In (EvRun c') tr -> attempted c' tr.
Proof.
  intros (_ & _ & Hr) Hc c' Hc'; destruct (Hr c' Hc') as [E|E]; [|exact E].
  injection E as <-; exact Hc.
Qed.

Lemma ci_nil : container_inv [] None.
Proof. split; [apply ami_nil|split]; [intros a []|intros c []]. Qed.

(* ------------------------------------------------------------------ *)
(** ** Using the block specifications inside a stage *)

Lemma test_runs_app a b : test_runs (a ++ b) = test_runs b ++ test_runs a.
Proof.
  induction a as [|ev a IH]; cbn; [rewrite app_nil_r; reflexivity|].
  destruct ev; rewrite ?IH; try reflexivity.
  destruct (cmd_eqb cmd pytest_install_cmd); [reflexivity|symmetry; apply app_assoc].
Qed.

Lemma first_exec_app c a b :
  first_exec c (a ++ b) =
  match first_exec c b with Some o => Some o | None => first_exec c a end.
Proof.
  induction a as [|ev a IH]; cbn; [destruct (first_exec c b); reflexivity|].
  destruct ev; rewrite ?IH; try reflexivity.
  destruct (first_exec c b); reflexivity.
Qed.

Lemma install_timed_out_app a b :
  install_timed_out (a ++ b) = install_timed_out a || install_timed_out b.
Proof. unfold install_timed_out; apply existsb_app. Qed.

Lemma first_exec_app_none c a b :
  first_exec c a = None -> first_exec c (a ++ b) = first_exec c b.
Proof. intros H; rewrite first_exec_app, H; destruct (first_exec c b); reflexivity. Qed.

Ltac use_block Hb :=
  lazymatch type of Hb with
  | bootstrap ?x ?cid ?st ?pre ?lt ?lp ?w = (?r, ?w') =>
      let H := fresh "HB" in
      pose proof (bootstrap_spec x cid st pre lt lp w r w' Hb) as H; clear Hb;
      symcbn_in H;
      destruct H as (?ext & ?Htr & ?Hneu & ?Htest & ?Hfe & ?Hcont & ?Hfalse & ?Hnf & ?Hito)
  | apply_patch ?cid ?p ?path ?st ?pre ?lt ?lp ?w = (?r, ?w') =>
      let H := fresh "HA" in
      pose proof (apply_patch_spec cid p path st pre lt lp w r w' Hb) as H; clear Hb;
      symcbn_in H;
      destruct H as (?ext & ?Htr & ?Hneu & ?Htest & ?Hito & ?Hfe & ?Hcont & ?Hfalse & ?Hnf
                     & ?Htrue & ?Hfail & ?Hundec)
  | run_tests ?x ?cid ?w = (?r, ?w') =>
      let H := fresh "HR" in
      pose proof (run_tests_spec x cid w r w' Hb) as H; clear Hb;
      symcbn_in H;
      destruct H as (?o & ?Htr & ?Hcont & ?Hres & ?Hnone & ?Hsome & ?Hinv)
  end.

(** Simplifies the hypotheses about block runs once their outcomes are
    known, and rewrites the final world's fields in the goal. *)
Ltac is_field f :=
  lazymatch f with w_trace => idtac | w_container => idtac | w_result => idtac end.

Ltac norm_step1 :=
  match goal with
  | H : ?a = ?a -> _ |- _ => specialize (H eq_refl)
  | H : forall v : string * Z, _ = _ -> _ |- _ => specialize (H _ eq_refl)
  | H : forall v : ExecResult, _ = _ -> _ |- _ => specialize (H _ eq_refl)
  | H : forall v1 v2 : ExecResult, _ = _ -> _ |- _ => specialize (H _ _ eq_refl)
  | H : context [?b || false] |- _ => rewrite orb_false_r in H
  | H : ?a = ?b -> _ |- _ =>
      let E := fresh in assert (E : a <> b) by discriminate; clear H E
  | H : ?a <> ?b -> _ |- _ =>
      let E := fresh in assert (E : a <> b) by discriminate; specialize (H E)
  | H : ?a <> ?a -> _ |- _ => clear H
  | H : install_timed_out ?e = true -> _ = _ |- _ =>
      let Hx := fresh "Hx" in
      case_eq (install_timed_out e); intro Hx;
        [specialize (H Hx); discriminate H | clear H]
  | Hf : forall er, first_exec ?c ?e = Some (inr er) -> _,
    H : first_exec ?c ?e = Some (inr ?er) |- _ => specialize (Hf er H)
  | H : install_timed_out ?e = true -> ?a = ?b /\ _ |- _ =>
      let E := fresh in assert (E : a <> b) by discriminate;
      let Hx := fresh "Hx" in
      case_eq (install_timed_out e); intro Hx;
        [exfalso; apply E; apply (H Hx) | clear H E]
  | H : test_runs ?e = _, H2 : context [test_runs ?e] |- _ => rewrite H in H2
  | H : install_timed_out ?e = _, H2 : context [install_timed_out ?e] |- _ => rewrite H in H2
  | H : first_exec ?c ?e = _, H2 : context [first_exec ?c ?e] |- _ => rewrite H in H2
  | H : Datatypes.length (_ :: _ :: _) <= 1 |- _ => cbn in H; lia
  | Hf : ?A -> ?B, H : ?A |- _ =>
      lazymatch type of A with Prop => specialize (Hf H) end
  | H : exists _, _ |- _ => destruct H
  | H : _ /\ _ |- _ => destruct H
  | H : context [match ?o with Some _ => false | None => false end] |- _ =>
      destruct o; cbn in H
  | H : negb _ = true |- _ => apply negb_true_iff in H
  | H : negb _ = false |- _ => apply negb_false_iff in H
  | H : inr _ = inr _ |- _ => injection H as H
  | H : Some _ = Some _ |- _ => injection H as H
  | H : (_, _) = (_, _) |- _ => injection H as ?H1 ?H2
  | H : _ :: _ = _ :: _ |- _ => injection H; clear H; intros
  | H : ?v = _ |- _ => is_var v; subst v
  | H : _ = ?v |- _ => is_var v; subst v
  end.

Ltac norm_step2 :=
  match goal with
  | H : ?f ?w = ?v |- context [?f ?w] =>
      is_field f; lazymatch v with context [f w] => fail | _ => rewrite H end
  | H : ?f ?w = ?v, H2 : ?T |- _ =>
      is_field f;
      lazymatch v with context [f w] => fail | _ => idtac end;
      lazymatch T with
      | w_trace _ = _ => fail | w_container _ = _ => fail | w_result _ = _ => fail
      | context [f w] => rewrite H in H2 end
  end.

Ltac norm_hyps := repeat (first [norm_step1 | norm_step2]); symcbn.

Ltac solve_ci :=
  repeat first
    [ assumption
    | apply ci_release; [eexists; solve [repeat (first [left; reflexivity | right])]|]
    | apply ci_stop | apply ci_remove | apply ci_run
    | apply ci_neutral1; [reflexivity|]
    | apply ci_neutral; [assumption|] ].

Ltac rw_facts :=
  do 2 (rewrite ?test_runs_app, ?first_exec_app, ?install_timed_out_app, ?cmd_eqb_refl;
  repeat match goal with
  | H : test_runs ?e = _ |- context [test_runs ?e] => rewrite H
  | H : install_timed_out ?e = _ |- context [install_timed_out ?e] => rewrite H
  | H : first_exec ?c ?e = _ |- context [first_exec ?c ?e] => rewrite H
  | H : cmd_eqb ?a ?b = _ |- context [cmd_eqb ?a ?b] => rewrite H
  | H : forall p, first_exec (apply_cmd p) ?e = None |- context [first_exec (apply_cmd _) ?e] =>
      rewrite H
  | H : forall p, String.eqb p ?q = false -> first_exec (apply_cmd p) ?e = None
    |- context [first_exec (apply_cmd ?p') ?e] =>
      rewrite (H p') by reflexivity
  end;
  symcbn).

Ltac solve_in :=
  repeat (first [solve [left; reflexivity] | right]);
  first [assumption | apply in_or_app; left; assumption].

(** Closes the conjuncts of a stage specification. *)
Ltac close_stage :=
  repeat (first [split | intro]); norm_hyps; rw_facts;
  try solve
    [ congruence | lia | left; reflexivity | eexists; reflexivity
    | match goal with
      |- _ \/ (exists st msg, _ /\ with_status ?s ?m ?r = with_status st msg ?r) \/ _ =>
        right; left; exists s, m; split; [cbn; tauto | reflexivity]
      end
    | right; right; do 2 eexists; reflexivity
    | do 2 eexists; reflexivity
    | do 3 eexists; reflexivity
    | right; reflexivity
    | eexists; split; [reflexivity | assumption]
    | do 2 eexists; split; [reflexivity|];
      split; [eassumption|]; split; [reflexivity|];
      eexists; split; [reflexivity|assumption]
    | do 2 eexists; split; [reflexivity|]; split; [eassumption|reflexivity]
    | solve_in ].

Lemma tfo_classify r : timeout_fields_ok (classify r).
Proof.
  unfold timeout_fields_ok, classify, with_status, with_f2p_pass, with_env_pass; cbn.
  destruct (negb (r_test_only_passed r) && r_both_patches_passed r), (r_both_patches_passed r);
    cbn; split; intro; discriminate.
Qed.

Ltac tfo_close :=
  first
    [ apply tfo_classify
    | match goal with Hf : fresh_result _ |- _ =>
        unfold fresh_result in Hf; destruct Hf as (? & ? & ? & ? & ? & ?) end;
      unfold timeout_fields_ok;
      cbn [r_status r_test_only_time r_test_only_passed r_both_patches_time
           r_both_patches_passed with_status with_test_only with_both_patches];
      split; intro; first [discriminate | exfalso; congruence | split; congruence] ].

Ltac solve_tfo :=
  norm_hyps;
  first
    [ solve [tfo_close]
    | repeat (match goal with
              | H : _ \/ _ |- _ => destruct H
              | H : False |- _ => destruct H
              | H : exists _, _ |- _ => destruct H
              | H : _ /\ _ |- _ => destruct H end);
      norm_hyps; tfo_close ].

Section Stages.
Variable env : Env.

Lemma stage1_container_inv x :
  triple (stage1 env x) (fun w r w' =>
    w_container w = None -> container_inv (w_trace w) None ->
    container_inv (w_trace w') (w_container w') /\ (r = inr true -> w_container w' = None)).
Proof.
  triple_start. unfold stage1. symex_with use_block.
  all: intros Hslot Hci; cbn in Hslot, Hci; subst.
  all: norm_hyps.
  all: split; [solve_ci | intros; try discriminate; try reflexivity].
Qed.

Lemma stage1_spec x :
  cmd_eqb ["bash"; "-c"; x_test_cmd x]%string pytest_install_cmd = false ->
  triple (stage1 env x) (fun w r w' =>
    let R0 := w_result w in
    let log := path_join (x_logs_dir x) "test_only.log" in
    exists ext, w_trace w' = ext ++ w_trace w /\
    length (test_runs ext) <= 1 /\
    (w_result w' = R0 \/
     (exists st msg, In st [pytest_install_failed; test_patch_apply_failed; test_only_timeout]
                     /\ w_result w' = with_status st msg R0) \/
     (exists t p, w_result w' = with_test_only t p R0)) /\
    (r = inr true -> exists er t, test_runs ext = [Some (inr er)] /\
        utf8_valid (output er) = true /\
        w_result w' = with_test_only t (check_test_results (exit_code er)) R0 /\
        exists er', first_exec (apply_cmd "/tmp/test.patch") ext = Some (inr er') /\
                    exit_code er' = 0%Z) /\
    (test_runs ext = [None] -> r = inr false /\
        (exists msg, w_result w' = with_status test_only_timeout msg R0) /\
        In (EvWrite log (timeout_log stage1_title (x_image_name x) (x_test_files x)
                          (x_test_cmd x) (x_timeout x))) ext) /\
    (forall er, first_exec (apply_cmd "/tmp/test.patch") ext = Some (inr er) ->
        exit_code er <> 0%Z -> utf8_valid (output er) = true ->
        r = inr false /\ test_runs ext = [] /\
        w_result w' = with_status test_patch_apply_failed
                        ("Failed to apply test_patch: " ++ output er) R0 /\
        In (EvWrite log ("=== Failed to apply test_patch ===" ++ nl ++ output er)) ext) /\
    (install_timed_out ext = true -> r = inr false /\
        exists msg, w_result w' = with_status pytest_install_failed msg R0) /\
    (forall er, first_exec (apply_cmd "/tmp/test.patch") ext = Some (inr er) ->
        exit_code er <> 0%Z -> utf8_valid (output er) = false ->
        r = inl UnicodeDecodeError)).
Proof.
  intros Hcmd. triple_start_r. unfold stage1. symex_with use_block.
  all: norm_hyps.
  all: give_ext.
  all: rw_facts.
  all: close_stage.
Qed.

Lemma stage2_container_inv x :
  triple (stage2 env x) (fun w r w' =>
    w_container w = None -> container_inv (w_trace w) None ->
    container_inv (w_trace w') (w_container w')).
Proof.
  triple_start. unfold stage2. symex_with use_block.
  all: intros Hslot Hci; cbn in Hslot, Hci; subst.
  all: norm_hyps.
  all: solve_ci.
Qed.

Lemma stage2_spec x :
  cmd_eqb ["bash"; "-c"; x_test_cmd x]%string pytest_install_cmd = false ->
  triple (stage2 env x) (fun w r w' =>
    let R0 := w_result w in
    let log := path_join (x_logs_dir x) "both_patches.log" in
    exists ext, w_trace w' = ext ++ w_trace w /\
    length (test_runs ext) <= 1 /\
    (w_result w' = R0 \/
     (exists st msg, In st [pytest_install_failed_stage2; fix_patch_apply_failed;
                            test_patch_apply_failed_stage2; both_patches_timeout]
                     /\ w_result w' = with_status st msg R0) \/
     (exists t p, w_result w' = with_both_patches t p R0)) /\
    (r = inr true -> exists er t, test_runs ext = [Some (inr er)] /\
        utf8_valid (output er) = true /\
        w_result w' = with_both_patches t (check_test_results (exit_code er)) R0) /\
    (forall er, test_runs ext = [Some (inr er)] -> utf8_valid (output er) = true ->
        r = inr true) /\
    (test_runs ext = [None] -> r = inr false /\
        (exists msg, w_result w' = with_status both_patches_timeout msg R0) /\
        In (EvWrite log (timeout_log stage2_title (x_image_name x) (x_test_files x)
                          (x_test_cmd x) (x_timeout x))) ext) /\
    (install_timed_out ext = true -> r = inr false /\
        exists msg, w_result w' = with_status pytest_install_failed_stage2 msg R0)).
Proof.
  intros Hcmd. triple_start_r. unfold stage2. symex_with use_block.
  all: norm_hyps.
  all: give_ext.
  all: rw_facts.
  all: close_stage.
Qed.

Ltac use_stage Hb :=
  lazymatch type of Hb with
  | stage1 ?env ?x ?w = (?r, ?w') =>
      let Hc := fresh "HC" in let H := fresh "HS" in
      pose proof (stage1_container_inv x w r w' Hb) as Hc;
      pose proof (stage1_spec x ltac:(assumption) w r w' Hb) as H; clear Hb;
      symcbn_in Hc; symcbn_in H;
      destruct H as (?ext & ?Htr & ?Hlen & ?Hshape & ?Htrue & ?Htmo & ?Happ & ?Hinst & ?Hundec)
  | stage2 ?env ?x ?w = (?r, ?w') =>
      let Hc := fresh "HC" in let H := fresh "HS" in
      pose proof (stage2_container_inv x w r w' Hb) as Hc;
      pose proof (stage2_spec x ltac:(assumption) w r w' Hb) as H; clear Hb;
      symcbn_in Hc; symcbn_in H;
      destruct H as (?ext & ?Htr & ?Hlen & ?Hshape & ?Htrue & ?Hdone & ?Htmo & ?Hinst)
  end.

Lemma evaluate_body_container_inv x :
  cmd_eqb ["bash"; "-c"; x_test_cmd x]%string pytest_install_cmd = false ->
  triple (evaluate_body env x) (fun w r w' =>
    w_container w = None -> container_inv (w_trace w) None ->
    container_inv (w_trace w') (w_container w')).
Proof.
  intros Hcmd. triple_start_r. unfold evaluate_body, determine_final.
  symex_with use_stage.
  all: intros Hslot Hci; cbn in Hslot, Hci; subst.
  all: norm_hyps.
  all: solve_ci.
Qed.

Lemma evaluate_body_spec x :
  cmd_eqb ["bash"; "-c"; x_test_cmd x]%string pytest_install_cmd = false ->
  triple (evaluate_body env x) (fun w r w' =>
    let R0 := w_result w in
    let l1 := path_join (x_logs_dir x) "test_only.log" in
    let l2 := path_join (x_logs_dir x) "both_patches.log" in
    exists ext, w_trace w' = ext ++ w_trace w /\
    (fresh_result R0 -> timeout_fields_ok (w_result w')) /\
    (forall er1 er2, test_runs ext = [Some (inr er1); Some (inr er2)] ->
        utf8_valid (output er1) = true -> utf8_valid (output er2) = true ->
        r = inr tt /\
        exists t1 t2, w_result w' =
          classify (with_logs l1 l2
            (with_both_patches t2 (check_test_results (exit_code er2))
              (with_test_only t1 (check_test_results (exit_code er1)) R0)))) /\
    (test_runs ext = [None] -> r = inr tt /\
        (exists msg, w_result w' = with_status test_only_timeout msg R0) /\
        In (EvWrite l1 (timeout_log stage1_title (x_image_name x) (x_test_files x)
                          (x_test_cmd x) (x_timeout x))) ext) /\
    (forall er, test_runs ext = [Some (inr er); None] -> utf8_valid (output er) = true ->
        r = inr tt /\
        (exists t p msg, w_result w' = with_status both_patches_timeout msg
                                          (with_test_only t p R0)) /\
        In (EvWrite l2 (timeout_log stage2_title (x_image_name x) (x_test_files x)
                          (x_test_cmd x) (x_timeout x))) ext) /\
    (install_timed_out ext = true -> r = inr tt /\
        (r_status (w_result w') = pytest_install_failed \/
         r_status (w_result w') = pytest_install_failed_stage2)) /\
    (forall er, first_exec (apply_cmd "/tmp/test.patch") ext = Some (inr er) ->
        exit_code er <> 0%Z -> utf8_valid (output er) = true ->
        r = inr tt /\ test_runs ext = [] /\
        w_result w' = with_status test_patch_apply_failed
                        ("Failed to apply test_patch: " ++ output er) R0 /\
        In (EvWrite l1 ("=== Failed to apply test_patch ===" ++ nl ++ output er)) ext) /\
    (forall er, first_exec (apply_cmd "/tmp/test.patch") ext = Some (inr er) ->
        exit_code er <> 0%Z -> utf8_valid (output er) = false ->
        r = inl UnicodeDecodeError)).
Proof.
  intros Hcmd. triple_start_r. unfold evaluate_body, determine_final.
  symex_with use_stage.
  all: norm_hyps.
  all: give_ext.
  all: rw_facts.
  all: split; [intro Hfresh; solve_tfo|].
  all: close_stage.
Qed.

Lemma evaluate_handlers_spec iid x e :
  triple (evaluate_handlers iid x e) (fun w r w' =>
    r = inr tt /\ w_container w' = w_container w /\
    (r_status (w_result w') = no_image \/ r_status (w_result w') = error) /\
    (is_image_not_found e = false -> r_status (w_result w') = error) /\
    exists ext, w_trace w' = ext ++ w_trace w /\ forallb ev_neutral ext = true /\
      test_runs ext = [] /\ install_timed_out ext = false /\
      (forall c, first_exec c ext = None)).
Proof.
  triple_start_r. unfold evaluate_handlers. symex.
  all: intros; split; [reflexivity|split; [reflexivity|split; [tauto|]]].
  all: split; [intros Hnf; first [reflexivity | congruence]|].
  all: give_ext; repeat split.
Qed.

End Stages.

Lemma cleanup_spec :
  triple cleanup (fun w r w' =>
    r = inr tt /\ w_result w' = w_result w /\ w_container w' = w_container w /\
    exists ext, w_trace w' = ext ++ w_trace w /\
      test_runs ext = [] /\ install_timed_out ext = false /\
      (forall c, first_exec c ext = None) /\
      (w_container w = None -> ext = []) /\
      (forall c, w_container w = Some c -> exists ok1 ok2, ext = [EvRemove c ok2; EvStop c ok1])).
Proof.
  triple_start_r. unfold cleanup, try_except, container_stop, container_remove. symex.
  all: intros; split; [reflexivity|split; [reflexivity|split; [reflexivity|]]].
  all: give_ext; repeat split; intros; try discriminate;
       try match goal with H : Some _ = Some _ |- _ => injection H as <- end;
       do 2 eexists; reflexivity.
Qed.

Lemma test_cmd_not_install s :
  cmd_eqb ["bash"; "-c"; "cd /testbed && pytest -rA " ++ s]%string pytest_install_cmd = false.
Proof. reflexivity. Qed.

(** After the [finally] clause the container discipline holds for the
    whole trace and every container created had its stop and removal
    attempted. *)
Lemma ci_after_cleanup tr s ext :
  container_inv tr s -> (s = None -> ext = []) ->
  (forall c, s = Some c -> exists ok1 ok2, ext = [EvRemove c ok2; EvStop c ok1]) ->
  at_most_one_live (ext ++ tr) /\ forall c, In (EvRun c) (ext ++ tr) -> attempted c (ext ++ tr).
Proof.
  intros Hci Hn Hs. destruct s as [c|].
  - destruct (Hs c eq_refl) as (ok1 & ok2 & ->).
    assert (H : container_inv ([EvRemove c ok2; EvStop c ok1] ++ tr) (Some c))
      by (apply ci_remove, ci_stop, Hci).
    split; [apply H|].
    apply (ci_all_attempted_some c _ H).
    split; [exists ok1; right; left; reflexivity | exists ok2; left; reflexivity].
  - rewrite (Hn eq_refl). split; [apply Hci|]. apply ci_all_attempted_none, Hci.
Qed.

Ltac use_top Hb :=
  lazymatch type of Hb with
  | evaluate_body ?env ?x ?w = (?r, ?w') =>
      let HC := fresh "HC" in let HB := fresh "HB" in
      pose proof (evaluate_body_container_inv env x ltac:(reflexivity) w r w' Hb) as HC;
      pose proof (evaluate_body_spec env x ltac:(reflexivity) w r w' Hb) as HB;
      symcbn_in HC; symcbn_in HB;
      destruct HB as (?ext & ?Htr & ?Htfo & ?Hok & ?Htmo1 & ?Htmo2 & ?Hinst & ?Happ & ?Hundec)
  | evaluate_handlers ?iid ?x ?e ?w = (?r, ?w') =>
      let HH := fresh "HH" in
      pose proof (evaluate_handlers_spec iid x e w r w' Hb) as HH; symcbn_in HH;
      destruct HH as (?Hr & ?Hcont & ?Hst & ?Hstn & ?ext & ?Htr & ?Hneu & ?Htest & ?Hito & ?Hfe)
  | cleanup ?w = (?r, ?w') =>
      let HK := fresh "HK" in
      pose proof (cleanup_spec w r w' Hb) as HK; symcbn_in HK;
      destruct HK as (?Hr & ?Hres & ?Hcont & ?ext & ?Htr & ?Htest & ?Hito & ?Hfe
                      & ?Hnone & ?Hsome)
  end.

Ltac early_close :=
  exists []; cbn [app]; split; [reflexivity|];
  match goal with Hci : container_inv _ None |- _ =>
    split; [apply Hci|]; split; [apply ci_all_attempted_none, Hci|] end;
  repeat split; intros;
  repeat match goal with H : exists _, _ |- _ => destruct H end;
  cbn in *; try contradiction; try discriminate;
  match goal with H : inr _ = inr _ |- _ =>
    injection H as <-; unfold timeout_fields_ok; cbn; split; intro; discriminate end.

Section Top.
Variable env : Env.
Variables (iid od ns arch tag : string) (tmo : Z) (ip : bool).

Lemma evaluate_single_instance_spec :
  triple (evaluate_single_instance env iid od ns arch tag tmo ip) (fun w r w' =>
    container_inv (w_trace w) None ->
    let img := get_image_name iid ns arch tag in
    let logs := path_join (path_join od iid) "evaluation_logs" in
    let l1 := path_join logs "test_only.log" in
    let l2 := path_join logs "both_patches.log" in
    exists ext, w_trace w' = ext ++ w_trace w /\
    at_most_one_live (w_trace w') /\
    (forall c, In (EvRun c) (w_trace w') -> attempted c (w_trace w')) /\
    ((exists c, In (EvRun c) ext) -> r = inr (w_result w')) /\
    (forall res, r = inr res -> timeout_fields_ok res) /\
    (forall er1 er2, test_runs ext = [Some (inr er1); Some (inr er2)] ->
        utf8_valid (output er1) = true -> utf8_valid (output er2) = true ->
        exists ts t1 t2, r = inr (classify (with_logs l1 l2
            (with_both_patches t2 (check_test_results (exit_code er2))
              (with_test_only t1 (check_test_results (exit_code er1))
                 (with_image img (init_result iid ts))))))) /\
    (test_runs ext = [None] -> exists res, r = inr res /\ r_status res = test_only_timeout /\
        exists tf cmd, In (EvWrite l1 (timeout_log stage1_title img tf cmd tmo)) ext) /\
    (forall er, test_runs ext = [Some (inr er); None] -> utf8_valid (output er) = true ->
        exists res, r = inr res /\ r_status res = both_patches_timeout /\
        exists tf cmd, In (EvWrite l2 (timeout_log stage2_title img tf cmd tmo)) ext) /\
    (install_timed_out ext = true -> exists res, r = inr res /\
        (r_status res = pytest_install_failed \/ r_status res = pytest_install_failed_stage2)) /\
    (forall er, first_exec (apply_cmd "/tmp/test.patch") ext = Some (inr er) ->
        exit_code er <> 0%Z -> utf8_valid (output er) = true ->
        exists res, r = inr res /\ r_status res = test_patch_apply_failed /\
        r_message res = ("Failed to apply test_patch: " ++ output er)%string /\
        r_both_patches_time res = 0 /\ test_runs ext = [] /\
        In (EvWrite l1 ("=== Failed to apply test_patch ===" ++ nl ++ output er)%string) ext) /\
    (forall er, first_exec (apply_cmd "/tmp/test.patch") ext = Some (inr er) ->
        exit_code er <> 0%Z -> utf8_valid (output er) = false ->
        exists res, r = inr res /\ r_status res = error)).
Proof.
  triple_start_r. unfold evaluate_single_instance, try_finally, try_except, docker_from_env,
    images_get, lift_sum.
  symex_with use_top.
  all: intros Hci; cbn in Hci.
  all: try match goal with H : inl _ = inr _ |- _ => discriminate H end.
  all: try solve [early_close].
  all: match goal with H : fresh_result ?r -> _ |- _ =>
         specialize (H ltac:(unfold fresh_result; cbn; repeat split; discriminate)) end.
  all: norm_hyps.
  all: try match goal with
       | HC : container_inv (_ ++ _) ?s, Hn : forallb ev_neutral ?e = true |- _ =>
           apply (ci_neutral e) in HC; [|exact Hn]
       end.
  all: match goal with
       | HC : container_inv ?t ?s, Hn : ?s = None -> ?e = [],
         Hs : forall c, ?s = Some c -> _ |- _ =>
           pose proof (ci_after_cleanup t s e HC Hn Hs) as HCA
       end.
  all: give_ext.
  all: repeat match goal with
       | Hf : forall c, first_exec c ?e = None |- context [first_exec ?c (?e ++ ?b)] =>
           rewrite (first_exec_app_none c e b (Hf c))
       end.
  all: rw_facts; rewrite ?app_nil_r.
  all: split; [apply HCA|]; split; [apply HCA|].
  all: repeat match goal with
       | |- _ /\ _ => split | |- _ -> _ => intro | |- forall _, _ => intro end.
  all: rewrite ?app_nil_r in *; norm_hyps.
  all: try match goal with H : inl _ = inr _ |- _ => discriminate H end.
  all: try (eexists; split; [reflexivity|]).
  all: try solve
    [ reflexivity | assumption
    | unfold timeout_fields_ok;
      match goal with H : _ \/ _ |- _ => destruct H as [E|E] end;
      rewrite E; split; intro; discriminate
    | do 3 eexists; reflexivity
    | left; reflexivity | right; reflexivity
    | exfalso; match goal with H : _ = true |- _ => cbn in H; discriminate H end
    | repeat split; try reflexivity; try assumption;
      try (do 2 eexists); repeat (first [eassumption | apply in_or_app; right]) ].
  all: try solve [congruence].
  all: repeat match goal with H : inl _ = inl _ |- _ => injection H as H; subst end.
  all: match goal with H : is_image_not_found _ = false -> _ |- _ =>
         specialize (H eq_refl) end.
  all: congruence.
Qed.

End Top.

Section Early.
Variable env : Env.
Variables (iid od ns arch tag : string) (tmo : Z) (ip : bool).

(** The returns before any container is created leave the world as it
    was; so do the exceptions raised before one is created. *)
Lemma evaluate_early_spec :
  triple (evaluate_single_instance env iid od ns arch tag tmo ip) (fun w r w' =>
    let hi := env_host env (path_join od iid) in
    let img := get_image_name iid ns arch tag in
    let early st := w' = w /\ exists res, r = inr res /\ r_status res = st /\
                      r_test_only_time res = 0 /\ r_both_patches_time res = 0 in
    (hi_dir hi = false -> early no_instance_dir) /\
    (hi_dir hi = true -> hi_json hi = false -> early no_instance_json) /\
    (forall e, hi_dir hi = true -> hi_json hi = true -> hi_data hi = inl e ->
       w' = w /\ r = inl e) /\
    (forall d, hi_dir hi = true -> hi_json hi = true -> hi_data hi = inr d ->
       (py_truthy (d_test_patch d) = false -> early no_test_patch) /\
       (py_truthy (d_test_patch d) = true ->
          extract_test_files_from_patch (d_test_patch d) = [] -> early no_test_files) /\
       (forall e, py_truthy (d_test_patch d) = true ->
          extract_test_files_from_patch (d_test_patch d) <> [] ->
          env_client env = Some e -> w' = w /\ r = inl e) /\
       (forall e, py_truthy (d_test_patch d) = true ->
          extract_test_files_from_patch (d_test_patch d) <> [] ->
          env_client env = None ->
          env_lookup_error env img = Some e -> is_image_not_found e = false ->
          w' = w /\ r = inl e) /\
       (forall e, py_truthy (d_test_patch d) = true ->
          extract_test_files_from_patch (d_test_patch d) <> [] ->
          env_client env = None ->
          env_lookup_error env img = Some e -> is_image_not_found e = true ->
          early no_image) /\
       (py_truthy (d_test_patch d) = true ->
          extract_test_files_from_patch (d_test_patch d) <> [] ->
          env_client env = None ->
          env_lookup_error env img = None ->
          existsb (String.eqb img) (env_images env) = false ->
          early no_image))).
Proof.
  triple_start_r. unfold evaluate_single_instance, try_finally, try_except, docker_from_env,
    images_get, lift_sum.
  symex.
  all: cbv zeta; repeat split; intros;
       repeat match goal with
       | H : negb _ = true |- _ => apply negb_true_iff in H
       | H : negb _ = false |- _ => apply negb_false_iff in H
       end;
       repeat match goal with
       | H1 : ?x = inr ?a, H2 : ?x = inr ?b |- _ =>
           rewrite H1 in H2; injection H2 as H2; subst b
       end;
       try congruence;
       try (eexists; repeat split; reflexivity).
Qed.

End Early.

(** Evaluation from an initial world: the trace is the run's own. *)
Lemma evaluate_start_spec env iid od ns arch tag tmo ip q clk r w :
  evaluate_single_instance env iid od ns arch tag tmo ip (start_world q clk) = (r, w) ->
  let img := get_image_name iid ns arch tag in
  let logs := path_join (path_join od iid) "evaluation_logs" in
  let l1 := path_join logs "test_only.log" in
  let l2 := path_join logs "both_patches.log" in
  let tr := w_trace w in
  at_most_one_live tr /\
  (forall c, In (EvRun c) tr -> attempted c tr) /\
  ((exists c, In (EvRun c) tr) -> r = inr (w_result w)) /\
  (forall res, r = inr res -> timeout_fields_ok res) /\
  (forall er1 er2, test_runs tr = [Some (inr er1); Some (inr er2)] ->
      utf8_valid (output er1) = true -> utf8_valid (output er2) = true ->
      exists ts t1 t2, r = inr (classify (with_logs l1 l2
          (with_both_patches t2 (check_test_results (exit_code er2))
            (with_test_only t1 (check_test_results (exit_code er1))
               (with_image img (init_result iid ts))))))) /\
  (test_runs tr = [None] -> exists res, r = inr res /\ r_status res = test_only_timeout /\
      exists tf cmd, In (EvWrite l1 (timeout_log stage1_title img tf cmd tmo)) tr) /\
  (forall er, test_runs tr = [Some (inr er); None] -> utf8_valid (output er) = true ->
      exists res, r = inr res /\ r_status res = both_patches_timeout /\
      exists tf cmd, In (EvWrite l2 (timeout_log stage2_title img tf cmd tmo)) tr) /\
  (install_timed_out tr = true -> exists res, r = inr res /\
      (r_status res = pytest_install_failed \/ r_status res = pytest_install_failed_stage2)) /\
  (forall er, first_exec (apply_cmd "/tmp/test.patch") tr = Some (inr er) ->
      exit_code er <> 0%Z -> utf8_valid (output er) = true ->
      exists res, r = inr res /\ r_status res = test_patch_apply_failed /\
      r_message res = ("Failed to apply test_patch: " ++ output er)%string /\
      r_both_patches_time res = 0 /\ test_runs tr = [] /\
      In (EvWrite l1 ("=== Failed to apply test_patch ===" ++ nl ++ output er)%string) tr) /\
  (forall er, first_exec (apply_cmd "/tmp/test.patch") tr = Some (inr er) ->
      exit_code er <> 0%Z -> utf8_valid (output er) = false ->
      exists res, r = inr res /\ r_status res = error).
Proof.
  intros H.
  destruct (evaluate_single_instance_spec env iid od ns arch tag tmo ip
              (start_world q clk) r w H ci_nil)
    as (ext & Htr & Ha & Hb & Hc & Hd & He & Hf & Hg & Hh & Hi & Hj).
  cbn in Htr; rewrite app_nil_r in Htr.
  cbv zeta; rewrite Htr in *.
  repeat match goal with |- _ /\ _ => split end; assumption.
Qed.

Lemma classify_fields r :
  r_test_only_passed (classify r) = r_test_only_passed r /\
  r_both_patches_passed (classify r) = r_both_patches_passed r /\
  r_env_pass (classify r) = r_both_patches_passed r /\
  r_f2p_pass (classify r) = negb (r_test_only_passed r) && r_both_patches_passed r /\
  r_status (classify r) = spec_status_table (r_test_only_passed r) (r_both_patches_passed r).
Proof.
  unfold classify, with_status, with_f2p_pass, with_env_pass; cbn.
  destruct (r_test_only_passed r), (r_both_patches_passed r); cbn; repeat split.
Qed.

Lemma scan_line_eq acc line :
  scan_line acc line =
  if is_diff_header line && is_test_path (header_old_path line)
  then acc ++ [header_old_path line] else acc.
Proof.
  unfold scan_line, is_diff_header, is_test_path, header_old_path.
  destruct (py_startswith line "diff --git"); [|reflexivity].
  destruct (Nat.leb 3 (length (py_split line))); reflexivity.
Qed.

(** The scan over the lines of a patch, with an accumulator. *)
Lemma fold_scan_line lines acc :
  fold_left scan_line lines acc =
  acc ++ filter is_test_path (map header_old_path (filter is_diff_header lines)).
Proof.
  revert acc; induction lines as [|line lines IH]; intros acc.
  - simpl. rewrite app_nil_r; reflexivity.
  - simpl fold_left. rewrite IH, scan_line_eq. cbn [filter].
    destruct (is_diff_header line); cbn [andb map filter]; [|reflexivity].
    destruct (is_test_path (header_old_path line)); [|reflexivity].
    rewrite <- app_assoc; reflexivity.
Qed.

Lemma find_map_container cid f cs :
  (forall c, c_id (f c) = c_id c) ->
  find_container cid (map_container cid f cs) = option_map f (find_container cid cs).
Proof.
  intros Hf; unfold find_container, map_container.
  induction cs as [|c cs IH]; cbn; [reflexivity|].
  destruct (Nat.eqb (c_id c) cid) eqn:E; cbn.
  - rewrite Hf, E; reflexivity.
  - rewrite E; exact IH.
Qed.

(** Counting lemmas for [main]. *)
Lemma run_parallel_counts s outs :
  let s' := run_parallel s outs in
  s_total s' = s_total s /\
  s_f2p_passed s' = s_f2p_passed s + length (filter counts_f2p outs) /\
  s_env_passed s' = s_env_passed s + length (filter counts_env outs) /\
  s_failed s' = s_failed s + length (filter counts_failed outs) /\
  s_no_image s' = s_no_image s + length (filter counts_no_image outs) /\
  s_error s' = s_error s + length (filter counts_error outs).
Proof.
  revert s; induction outs as [|[e|res] outs IH]; intros s; cbn zeta.
  - cbn; lia.
  - destruct (IH (count_exception s)) as (H1 & H2 & H3 & H4 & H5 & H6).
    cbn [run_parallel filter counts_f2p counts_env counts_failed counts_no_image counts_error length].
    rewrite H1, H2, H3, H4, H5, H6; cbn; lia.
  - destruct (IH (count_result s res)) as (H1 & H2 & H3 & H4 & H5 & H6).
    cbn [run_parallel filter counts_f2p counts_env counts_failed counts_no_image counts_error length].
    rewrite H1, H2, H3, H4, H5, H6.
    unfold count_result, passed_flags.
    destruct (r_f2p_pass res), (r_env_pass res); cbn; try lia;
    destruct (Status_eqb (r_status res) no_image) eqn:E1; cbn; try lia;
    destruct (Status_eqb (r_status res) error) eqn:E2; cbn; try lia;
    destruct (r_status res); discriminate.
Qed.

Lemma run_sequential_inr s outs s' :
  run_sequential s outs = inr s' ->
  s' = run_parallel s outs /\ Forall (fun o => exists res, o = inr res) outs.
Proof.
  revert s; induction outs as [|[e|res] outs IH]; intros s H; cbn in H.
  - injection H as <-; split; [reflexivity | constructor].
  - discriminate H.
  - destruct (IH _ H) as [-> HF]; split; [reflexivity|].
    constructor; [eexists; reflexivity | exact HF].
Qed.

Lemma run_sequential_inl s outs e :
  run_sequential s outs = inl e -> exists e', In (inl e') outs.
Proof.
  revert s; induction outs as [|[e0|res] outs IH]; intros s H; cbn in H.
  - discriminate H.
  - exists e0; left; reflexivity.
  - destruct (IH _ H) as (e' & He'); exists e'; right; exact He'.
Qed.

Lemma filter_failed_nil outs :
  length (filter counts_failed outs) = 0 <->
  Forall (fun o => exists res, o = inr res /\ passed_flags res = true) outs.
Proof.
  induction outs as [|[e|res] outs IH]; cbn.
  - split; [constructor | reflexivity].
  - split; [discriminate | intros HF; inversion HF as [|? ? (r0 & Hr & _)]; discriminate Hr].
  - destruct (passed_flags res) eqn:E; cbn.
    + rewrite IH; split; intros H.
      * constructor; [exists res; split; [reflexivity | exact E] | exact H].
      * inversion H; assumption.
    + split; [discriminate|].
      intros HF; inversion HF as [|? ? (r0 & Hr & Hp)]; injection Hr as <-; congruence.
Qed.

Lemma main_model_written dir lerr par outs werr code s :
  main_model dir lerr par outs werr = Returned code (Some s) ->
  dir = true /\ lerr = None /\ werr = None /\
  s = run_parallel (init_stats (length outs)) outs /\
  code = (if Nat.eqb (s_failed s) 0 then 0 else 1).
Proof.
  unfold main_model; destruct dir; cbn; [|discriminate].
  destruct lerr as [e|]; [discriminate|].
  destruct werr as [e|].
  - destruct par; [discriminate|].
    destruct (run_sequential (init_stats (length outs)) outs); discriminate.
  - destruct par.
    + intros H; injection H as <- <-; repeat split.
    + destruct (run_sequential (init_stats (length outs)) outs) as [e|s0] eqn:E;
        [discriminate|].
      intros H; injection H as <- <-.
      destruct (run_sequential_inr _ _ _ E) as [-> _]; repeat split.
Qed.


(** C1: when both stages run their tests to completion (no apply failure,
    no timeout, outputs that decode), the result has
    [env_pass = stage2.passed], [f2p_pass = not stage1.passed and
    stage2.passed], and its status follows the table
    (F,T) f2p_passed, (T,T) env_passed, (F,F) and (T,F) failed; so
    [f2p_pass] implies [env_pass]. *)
Theorem C1_classification env iid od ns arch tag tmo ip q clk r w er1 er2 :
  evaluate_single_instance env iid od ns arch tag tmo ip (start_world q clk) = (r, w) ->
  test_runs (w_trace w) = [Some (inr er1); Some (inr er2)] ->
  utf8_valid (output er1) = true -> utf8_valid (output er2) = true ->
  exists res, r = inr res /\
    r_test_only_passed res = check_test_results (exit_code er1) /\
    r_both_patches_passed res = check_test_results (exit_code er2) /\
    r_env_pass res = r_both_patches_passed res /\
    r_f2p_pass res = negb (r_test_only_passed res) && r_both_patches_passed res /\
    r_status res = spec_status_table (r_test_only_passed res) (r_both_patches_passed res) /\
    (r_f2p_pass res = true -> r_env_pass res = true).
Proof.
  intros H Ht Hv1 Hv2.
  destruct (evaluate_start_spec _ _ _ _ _ _ _ _ _ _ _ _ H)
    as (_ & _ & _ & _ & He & _).
  destruct (He er1 er2 Ht Hv1 Hv2) as (ts & t1 & t2 & ->).
  eexists; split; [reflexivity|].
  set (r0 := with_logs _ _ _).
  destruct (classify_fields r0) as (F1 & F2 & F3 & F4 & F5).
  rewrite F1, F2, F3, F4, F5.
  subst r0; cbn.
  repeat split.
  destruct (check_test_results (exit_code er1)), (check_test_results (exit_code er2));
    cbn; congruence.
Qed.

Lemma C1_classification_witness :
  exists res, fst (demo_run demo_env false (demo_queues [] [Finishes 0 (inr (mkExecResult 1 ""));
                               Finishes 0 (inr (mkExecResult 0 ""))])) = inr res /\
    r_test_only_passed res = check_test_results (exit_code (mkExecResult 1 "")) /\
    r_both_patches_passed res = check_test_results (exit_code (mkExecResult 0 "")) /\
    r_env_pass res = r_both_patches_passed res /\
    r_f2p_pass res = negb (r_test_only_passed res) && r_both_patches_passed res /\
    r_status res = spec_status_table (r_test_only_passed res) (r_both_patches_passed res) /\
    (r_f2p_pass res = true -> r_env_pass res = true).
Proof.
  refine (C1_classification demo_env "demo" "/out" "ns" "x86_64" "latest" 60 false
           (demo_queues [] [Finishes 0 (inr (mkExecResult 1 ""));
                            Finishes 0 (inr (mkExecResult 0 ""))]) 0
           _ _ (mkExecResult 1 "") (mkExecResult 0 "") _ _ _ _).
  - exact (surjective_pairing _).
  - vm_compute; reflexivity.
  - reflexivity.
  - reflexivity.
Defined.

(** C2 (the spec's reading): the new-file ([b/]) paths of the
    [diff --git] lines that contain [test] and end in [.py] are not
    what [extract_test_files_from_patch] returns: here a patch renames
    [old.py] to [tests/test_new.py] and [tests/test_old.py] to
    [src/new.py]; the code returns the old path [tests/test_old.py]. *)
Lemma C2_extract_counterexample :
  let p := ("diff --git a/old.py b/tests/test_new.py" ++ nl ++
            "diff --git a/tests/test_old.py b/src/new.py")%string in
  extract_test_files_from_patch p = ["tests/test_old.py"%string] /\
  spec_extract_test_files p = ["tests/test_new.py"%string].
Proof. vm_compute; split; reflexivity. Qed.

(** C2 (as the code behaves): for every test patch, the result is, in
    encounter order and with duplicates, the third whitespace field
    without its first two characters (the old, [a/], path) of each line
    that starts with [diff --git] and has at least three fields, kept
    when it contains [test] case-insensitively and ends in [.py]; the
    empty patch gives the empty list. *)
Theorem C2_extract_test_files (test_patch : string) :
  extract_test_files_from_patch test_patch =
  if String.eqb test_patch "" then []
  else filter is_test_path
         (map header_old_path (filter is_diff_header (py_split_on "010"%char test_patch))).
Proof.
  unfold extract_test_files_from_patch, py_truthy.
  destruct (String.eqb test_patch "") eqn:E; cbn [negb]; [reflexivity|].
  rewrite fold_scan_line; reflexivity.
Qed.

(** C3: from a fresh world, at every point of the evaluation at most one
    container exists; every container created has had its stop and its
    removal attempted by the end; and once a container was created the
    evaluator returns its result record, whatever the cleanup raised. *)
Theorem C3_container_discipline env iid od ns arch tag tmo ip q clk r w :
  evaluate_single_instance env iid od ns arch tag tmo ip (start_world q clk) = (r, w) ->
  at_most_one_live (w_trace w) /\
  (forall c, In (EvRun c) (w_trace w) -> attempted c (w_trace w)) /\
  ((exists c, In (EvRun c) (w_trace w)) -> r = inr (w_result w)).
Proof.
  intros H.
  destruct (evaluate_start_spec _ _ _ _ _ _ _ _ _ _ _ _ H) as (H1 & H2 & H3 & _).
  split; [exact H1 | split; [exact H2 | exact H3]].
Qed.

Lemma C3_container_discipline_witness :
  at_most_one_live (w_trace (snd (demo_run demo_env false
     (mkQueues [] [Some (APIError "stop failed")] [Some (APIError "remove failed")] [] [] [])))) /\
  (forall c, In (EvRun c) (w_trace (snd (demo_run demo_env false
     (mkQueues [] [Some (APIError "stop failed")] [Some (APIError "remove failed")] [] [] [])))) ->
     attempted c (w_trace (snd (demo_run demo_env false
     (mkQueues [] [Some (APIError "stop failed")] [Some (APIError "remove failed")] [] [] []))))) /\
  ((exists c, In (EvRun c) (w_trace (snd (demo_run demo_env false
     (mkQueues [] [Some (APIError "stop failed")] [Some (APIError "remove failed")] [] [] []))))) ->
   fst (demo_run demo_env false
     (mkQueues [] [Some (APIError "stop failed")] [Some (APIError "remove failed")] [] [] [])) =
   inr (w_result (snd (demo_run demo_env false
     (mkQueues [] [Some (APIError "stop failed")] [Some (APIError "remove failed")] [] [] []))))).
Proof.
  refine (C3_container_discipline demo_env "demo" "/out" "ns" "x86_64" "latest" 60 false
            (mkQueues [] [Some (APIError "stop failed")] [Some (APIError "remove failed")] [] [] [])
            0 _ _ _).
  exact (surjective_pairing _).
Defined.

(** C4 (the spec's reading): the timeout of a command run through the
    bounded executor is not always turned into a stage timeout status:
    when the pytest installation exceeds its bound the stage ends with
    [pytest_install_failed]. *)
Lemma C4_install_timeout_counterexample :
  install_timed_out (w_trace (snd (demo_run demo_env true
     (demo_queues [inr (mkExecResult 1 "")] [Hangs])))) = true /\
  exists res, fst (demo_run demo_env true (demo_queues [inr (mkExecResult 1 "")] [Hangs]))
              = inr res /\
    r_status res = pytest_install_failed /\
    r_message res = "Failed to install pytest: pytest installation timed out after 300s"%string.
Proof. vm_compute; split; [reflexivity | eexists; repeat split]. Qed.

(** C4 (as the code behaves): the bounded executor returns the exit code
    and output of a command that completes within the bound and logs
    nothing else; a command that hangs or exceeds the bound makes it raise
    [TimeoutError] and stays among the container's processes.  The
    evaluator turns a timeout of the stage-1 or stage-2 test command into
    [test_only_timeout] or [both_patches_timeout] with a log built by
    [timeout_log], which holds the marker [=== TIMEOUT ===]; a timeout of
    the pytest installation ends as [pytest_install_failed] or
    [pytest_install_failed_stage2]. *)
Theorem C4_timeout_handling :
  (forall cid cmd t w r w' resp rest,
     exec_run_with_timeout cid cmd t w = (r, w') ->
     q_timed (w_q w) = resp :: rest ->
     let bound := 100 * Z.to_nat t in
     (forall d x, resp = Finishes d (inr x) -> d <= bound ->
        r = inr x /\ w_trace w' = EvTimed cid cmd (Some (inr x)) :: w_trace w) /\
     ((resp = Hangs \/ exists d o, resp = Finishes d o /\ bound < d) ->
        r = inl (TimeoutError ("Command execution exceeded " ++ Z_to_string t
                               ++ " seconds")%string) /\
        w_trace w' = EvTimed cid cmd None :: w_trace w /\
        e_containers (w_eng w') =
        map_container cid (fun c => mkContainer (c_id c) (c_name c) (c_running c)
                                      (c_procs c ++ [cmd]) (c_files c))
          (e_containers (w_eng w)))) /\
  (forall env iid od ns arch tag tmo ip q clk r w,
     evaluate_single_instance env iid od ns arch tag tmo ip (start_world q clk) = (r, w) ->
     let img := get_image_name iid ns arch tag in
     let logs := path_join (path_join od iid) "evaluation_logs" in
     (test_runs (w_trace w) = [None] ->
        exists res, r = inr res /\ r_status res = test_only_timeout /\
        exists tf cmd, In (EvWrite (path_join logs "test_only.log")
                              (timeout_log stage1_title img tf cmd tmo)) (w_trace w)) /\
     (forall er, test_runs (w_trace w) = [Some (inr er); None] ->
        utf8_valid (output er) = true ->
        exists res, r = inr res /\ r_status res = both_patches_timeout /\
        exists tf cmd, In (EvWrite (path_join logs "both_patches.log")
                              (timeout_log stage2_title img tf cmd tmo)) (w_trace w)) /\
     (install_timed_out (w_trace w) = true ->
        exists res, r = inr res /\
        (r_status res = pytest_install_failed \/
         r_status res = pytest_install_failed_stage2))) /\
  (forall title img tf cmd t, exists pre post,
     timeout_log title img tf cmd t = (pre ++ "=== TIMEOUT ===" ++ post)%string).
Proof.
  split; [|split].
  - intros cid cmd t w r w' resp rest H Hq bound.
    unfold exec_run_with_timeout in H; rewrite Hq in H; cbn [pop] in H.
    split.
    + intros d x -> Hd. fold bound in H.
      apply Nat.leb_le in Hd; rewrite Hd in H.
      injection H as <- <-; split; reflexivity.
    + intros Hr.
      assert (Ht : match resp with
                   | Finishes d _ => Nat.leb d bound = false
                   | Hangs => True end).
      { destruct Hr as [-> | (d & o & -> & Hd)]; [exact I | apply Nat.leb_gt; exact Hd]. }
      fold bound in H.
      destruct resp as [d o|].
      * rewrite Ht in H; injection H as <- <-; repeat split.
      * injection H as <- <-; repeat split.
  - intros env iid od ns arch tag tmo ip q clk r w H img logs.
    destruct (evaluate_start_spec _ _ _ _ _ _ _ _ _ _ _ _ H)
      as (_ & _ & _ & _ & _ & Hf & Hg & Hh & _).
    split; [exact Hf | split; [exact Hg | exact Hh]].
  - intros title img tf cmd t.
    exists (log_header title img tf cmd).
    eexists; reflexivity.
Qed.

(** C5 (the spec's reading): a failed [git apply] of the test patch does
    not always end as [test_patch_apply_failed]: when its output is not
    valid UTF-8, decoding it raises and the instance ends as [error]. *)
Lemma C5_apply_undecodable_counterexample :
  first_exec (apply_cmd "/tmp/test.patch"%string)
    (w_trace (snd (demo_run demo_env false
       (demo_queues [inr (mkExecResult 1 (String "255"%char EmptyString))] [])))) =
    Some (inr (mkExecResult 1 (String "255"%char EmptyString))) /\
  exists res, fst (demo_run demo_env false
       (demo_queues [inr (mkExecResult 1 (String "255"%char EmptyString))] [])) = inr res /\
    r_status res = error.
Proof. vm_compute; split; [reflexivity | eexists; split; reflexivity]. Qed.

(** C5 (as the code behaves): when the stage-1 [git apply] of the test
    patch exits non-zero with output that decodes, the evaluator ends with
    [test_patch_apply_failed], its message and the stage-1 log carry the
    apply's output, no test command was run and [both_patches_time] is 0.
    When that output does not decode, [bytes.decode()] raises and the
    evaluator ends with [error]. *)
Theorem C5_apply_failure env iid od ns arch tag tmo ip q clk r w er :
  evaluate_single_instance env iid od ns arch tag tmo ip (start_world q clk) = (r, w) ->
  first_exec (apply_cmd "/tmp/test.patch"%string) (w_trace w) = Some (inr er) ->
  exit_code er <> 0%Z ->
  (utf8_valid (output er) = true ->
   exists res, r = inr res /\ r_status res = test_patch_apply_failed /\
     r_message res = ("Failed to apply test_patch: " ++ output er)%string /\
     r_both_patches_time res = 0 /\ test_runs (w_trace w) = [] /\
     In (EvWrite (path_join (path_join (path_join od iid) "evaluation_logs") "test_only.log")
            ("=== Failed to apply test_patch ===" ++ nl ++ output er)%string) (w_trace w)) /\
  (utf8_valid (output er) = false ->
   exists res, r = inr res /\ r_status res = error).
Proof.
  intros H He Hc.
  destruct (evaluate_start_spec _ _ _ _ _ _ _ _ _ _ _ _ H)
    as (_ & _ & _ & _ & _ & _ & _ & _ & Hi & Hj).
  split; intros Hv; [exact (Hi er He Hc Hv) | exact (Hj er He Hc Hv)].
Qed.

Lemma C5_apply_failure_witness :
  let er := mkExecResult 1 "error: patch failed" in
  let rw := demo_run demo_env false (demo_queues [inr er] []) in
  first_exec (apply_cmd "/tmp/test.patch"%string) (w_trace (snd rw)) = Some (inr er) /\
  exit_code er <> 0%Z /\
  (utf8_valid (output er) = true ->
   exists res, fst rw = inr res /\ r_status res = test_patch_apply_failed /\
     r_message res = ("Failed to apply test_patch: " ++ output er)%string /\
     r_both_patches_time res = 0 /\ test_runs (w_trace (snd rw)) = [] /\
     In (EvWrite (path_join (path_join (path_join "/out" "demo") "evaluation_logs") "test_only.log")
            ("=== Failed to apply test_patch ===" ++ nl ++ output er)%string) (w_trace (snd rw))) /\
  (utf8_valid (output er) = false ->
   exists res, fst rw = inr res /\ r_status res = error).
Proof.
  intros er rw.
  split; [vm_compute; reflexivity|]. split; [discriminate|].
  refine (C5_apply_failure demo_env "demo" "/out" "ns" "x86_64" "latest" 60 false
            (demo_queues [inr er] []) 0 (fst rw) (snd rw) er _ _ _).
  - exact (surjective_pairing _).
  - vm_compute; reflexivity.
  - discriminate.
Defined.

(** Discharges a side condition that a case split has decided. *)
Ltac hyp_ok :=
  first [ assumption | reflexivity | discriminate
        | match goal with H : ?x = ?v |- ?x = ?v => exact H end
        | match goal with H : ?x = _ :: _ |- ?x <> [] => rewrite H; discriminate end ].

(** C6 (the spec's reading): an absent image does not always give
    [no_image]: a missing instance directory is reported first, and when
    [docker.from_env()] fails the exception leaves the evaluator.  A
    lookup that fails otherwise than with [ImageNotFound] (docker-py's
    [APIError], e.g. 400 for an invalid reference) also leaves it. *)
Lemma C6_no_image_counterexample :
  existsb (String.eqb demo_image) [] = false /\
  (exists res,
     fst (demo_run (mkEnv (fun _ => mkHostInstance false true
                              (inr (mkDescriptor demo_patch "fix")))
                          None [] [] (fun _ => None))
                   false (demo_queues [] [])) = inr res /\
     r_status res = no_instance_dir) /\
  fst (demo_run (mkEnv demo_host (Some (APIError "docker daemon unreachable")) [] []
                       (fun _ => None))
                false (demo_queues [] [])) = inl (APIError "docker daemon unreachable") /\
  fst (demo_run (mkEnv demo_host None [] []
                       (fun _ => Some (APIError "400 Client Error: invalid reference format")))
                false (demo_queues [] []))
    = inl (APIError "400 Client Error: invalid reference format").
Proof.
  vm_compute.
  split; [reflexivity | split; [eexists; split; reflexivity | split; reflexivity]].
Qed.

(** C6 (as the code behaves): the validation failures [no_instance_dir],
    [no_instance_json], [no_test_patch], [no_test_files], in that order,
    return a result with both stage times 0 and leave the world as it was:
    no container is created, no event occurs.  When the validations pass,
    an exception of [docker.from_env()] leaves the evaluator, as does an
    image lookup error that is not [ImageNotFound]; an [ImageNotFound]
    lookup, or an absent image, gives [no_image] with the same guarantee.
    Conversely a [no_image] result arises only when all validations pass
    and the Docker client was created. *)
Theorem C6_early_returns env iid od ns arch tag tmo ip w r w' :
  evaluate_single_instance env iid od ns arch tag tmo ip w = (r, w') ->
  let hi := env_host env (path_join od iid) in
  let img := get_image_name iid ns arch tag in
  let early st := w' = w /\ exists res, r = inr res /\ r_status res = st /\
                    r_test_only_time res = 0 /\ r_both_patches_time res = 0 in
  (hi_dir hi = false -> early no_instance_dir) /\
  (hi_dir hi = true -> hi_json hi = false -> early no_instance_json) /\
  (forall e, hi_dir hi = true -> hi_json hi = true -> hi_data hi = inl e ->
     w' = w /\ r = inl e) /\
  (forall d, hi_dir hi = true -> hi_json hi = true -> hi_data hi = inr d ->
     (py_truthy (d_test_patch d) = false -> early no_test_patch) /\
     (py_truthy (d_test_patch d) = true ->
        extract_test_files_from_patch (d_test_patch d) = [] -> early no_test_files) /\
     (forall e, py_truthy (d_test_patch d) = true ->
        extract_test_files_from_patch (d_test_patch d) <> [] ->
        env_client env = Some e -> w' = w /\ r = inl e) /\
     (forall e, py_truthy (d_test_patch d) = true ->
        extract_test_files_from_patch (d_test_patch d) <> [] ->
        env_client env = None ->
        env_lookup_error env img = Some e -> is_image_not_found e = false ->
        w' = w /\ r = inl e) /\
     (forall e, py_truthy (d_test_patch d) = true ->
        extract_test_files_from_patch (d_test_patch d) <> [] ->
        env_client env = None ->
        env_lookup_error env img = Some e -> is_image_not_found e = true ->
        early no_image) /\
     (py_truthy (d_test_patch d) = true ->
        extract_test_files_from_patch (d_test_patch d) <> [] ->
        env_client env = None ->
        env_lookup_error env img = None ->
        existsb (String.eqb img) (env_images env) = false ->
        early no_image)) /\
  (forall res, r = inr res -> r_status res = no_image ->
     hi_dir hi = true /\ hi_json hi = true /\
     (exists d, hi_data hi = inr d /\ py_truthy (d_test_patch d) = true /\
                extract_test_files_from_patch (d_test_patch d) <> []) /\
     env_client env = None).
Proof.
  intros H.
  pose proof (evaluate_early_spec env iid od ns arch tag tmo ip w r w' H) as S.
  cbv zeta in S |- *. destruct S as (S1 & S2 & S3 & S4).
  split; [exact S1|]. split; [exact S2|]. split; [exact S3|]. split; [exact S4|].
  intros res Hr Hs.
  destruct (hi_dir (env_host env (path_join od iid))) eqn:Ed.
  2: { destruct (S1 ltac:(hyp_ok)) as (_ & res' & Hr' & Hs' & _).
       rewrite Hr in Hr'; injection Hr' as <-; rewrite Hs in Hs'; discriminate Hs'. }
  destruct (hi_json (env_host env (path_join od iid))) eqn:Ej.
  2: { destruct (S2 ltac:(hyp_ok) ltac:(hyp_ok)) as (_ & res' & Hr' & Hs' & _).
       rewrite Hr in Hr'; injection Hr' as <-; rewrite Hs in Hs'; discriminate Hs'. }
  destruct (hi_data (env_host env (path_join od iid))) as [e|d] eqn:Ea.
  { destruct (S3 e ltac:(hyp_ok) ltac:(hyp_ok) ltac:(hyp_ok)) as (_ & Hr'); rewrite Hr in Hr'; discriminate Hr'. }
  destruct (S4 d ltac:(hyp_ok) ltac:(hyp_ok) ltac:(hyp_ok)) as (T1 & T2 & T3 & _).
  destruct (py_truthy (d_test_patch d)) eqn:Et.
  2: { destruct (T1 ltac:(hyp_ok)) as (_ & res' & Hr' & Hs' & _).
       rewrite Hr in Hr'; injection Hr' as <-; rewrite Hs in Hs'; discriminate Hs'. }
  destruct (extract_test_files_from_patch (d_test_patch d)) as [|f fs] eqn:Ex.
  { destruct (T2 ltac:(hyp_ok) ltac:(hyp_ok)) as (_ & res' & Hr' & Hs' & _).
    rewrite Hr in Hr'; injection Hr' as <-; rewrite Hs in Hs'; discriminate Hs'. }
  destruct (env_client env) as [e|] eqn:Ec.
  { destruct (T3 e ltac:(hyp_ok) ltac:(hyp_ok) ltac:(hyp_ok)) as (_ & Hr').
    rewrite Hr in Hr'; discriminate Hr'. }
  split; [hyp_ok | split; [hyp_ok | split; [|hyp_ok]]].
  exists d; split; [hyp_ok | split; hyp_ok].
Qed.

Lemma C6_early_returns_witness :
  let env := mkEnv demo_host None [] [] (fun _ => None) in
  let iid := "demo"%string in let od := "/out"%string in
  let ns := "ns"%string in let arch := "x86_64"%string in let tag := "latest"%string in
  let w := start_world (demo_queues [] []) 0 in
  let rw := evaluate_single_instance env iid od ns arch tag 60 false w in
  let r := fst rw in let w' := snd rw in
  let hi := env_host env (path_join od iid) in
  let img := get_image_name iid ns arch tag in
  let early st := w' = w /\ exists res, r = inr res /\ r_status res = st /\
                    r_test_only_time res = 0 /\ r_both_patches_time res = 0 in
  (hi_dir hi = false -> early no_instance_dir) /\
  (hi_dir hi = true -> hi_json hi = false -> early no_instance_json) /\
  (forall e, hi_dir hi = true -> hi_json hi = true -> hi_data hi = inl e ->
     w' = w /\ r = inl e) /\
  (forall d, hi_dir hi = true -> hi_json hi = true -> hi_data hi = inr d ->
     (py_truthy (d_test_patch d) = false -> early no_test_patch) /\
     (py_truthy (d_test_patch d) = true ->
        extract_test_files_from_patch (d_test_patch d) = [] -> early no_test_files) /\
     (forall e, py_truthy (d_test_patch d) = true ->
        extract_test_files_from_patch (d_test_patch d) <> [] ->
        env_client env = Some e -> w' = w /\ r = inl e) /\
     (forall e, py_truthy (d_test_patch d) = true ->
        extract_test_files_from_patch (d_test_patch d) <> [] ->
        env_client env = None ->
        env_lookup_error env img = Some e -> is_image_not_found e = false ->
        w' = w /\ r = inl e) /\
     (forall e, py_truthy (d_test_patch d) = true ->
        extract_test_files_from_patch (d_test_patch d) <> [] ->
        env_client env = None ->
        env_lookup_error env img = Some e -> is_image_not_found e = true ->
        early no_image) /\
     (py_truthy (d_test_patch d) = true ->
        extract_test_files_from_patch (d_test_patch d) <> [] ->
        env_client env = None ->
        env_lookup_error env img = None ->
        existsb (String.eqb img) (env_images env) = false ->
        early no_image)) /\
  (forall res, r = inr res -> r_status res = no_image ->
     hi_dir hi = true /\ hi_json hi = true /\
     (exists d, hi_data hi = inr d /\ py_truthy (d_test_patch d) = true /\
                extract_test_files_from_patch (d_test_patch d) <> []) /\
     env_client env = None).
Proof.
  intros env iid od ns arch tag w rw r w'.
  exact (C6_early_returns env iid od ns arch tag 60 false w r w' (surjective_pairing _)).
Defined.

(** C7 (the spec's reading): not every patch text is delivered: a text
    holding a surrogate code point (bytes ED A0 80) cannot be encoded,
    [UnicodeEncodeError] is raised and nothing is uploaded. *)
Lemma C7_surrogate_counterexample :
  write_patch_to_container 0 (String "237"%char (String "160"%char (String "128"%char EmptyString)))
    "/tmp/test.patch" (start_world (demo_queues [] []) 0) =
  (inl UnicodeEncodeError, start_world (demo_queues [] []) 0).
Proof. vm_compute; reflexivity. Qed.

(** C7 (as the code behaves): a patch text holding a surrogate code point
    cannot be encoded: [UnicodeEncodeError] is raised and the world is
    left as it was, nothing is uploaded.  For a patch text without
    surrogates, one upload is made through [put_archive] into the
    destination's directory (["/"] when it has none), of an archive of
    exactly one entry named by the destination's base name, of the text's
    byte length and with the text as content.  On success the container
    holds that file with that content; when the upload reports failure
    [RuntimeError] is raised; an exception of the upload is passed on. *)
Theorem C7_write_patch cid text dest w r w' :
  write_patch_to_container cid text dest w = (r, w') ->
  (has_surrogate text = true -> r = inl UnicodeEncodeError /\ w' = w) /\
  (has_surrogate text = false ->
   let dir := if py_truthy (dirname dest) then dirname dest else "/"%string in
   let entry := mkTarEntry (basename dest) (String.length text) (e_clock (w_eng w)) text in
   exists o, w_trace w' = EvPut cid dir [entry] o :: w_trace w /\
     (o = inr true -> r = inr tt /\
        forall c, find_container cid (e_containers (w_eng w)) = Some c ->
        exists c', find_container cid (e_containers (w_eng w')) = Some c' /\
          c_files c' = ((dir, basename dest), text) :: c_files c /\
          c_procs c' = c_procs c /\ c_running c' = c_running c) /\
     (o = inr false -> r = inl (RuntimeError ("Failed to write patch to " ++ dest))) /\
     (forall e, o = inl e -> r = inl e)).
Proof.
  intros H; split.
  - intros Hs.
    unfold write_patch_to_container, py_encode in H; rewrite Hs in H.
    cbn in H; injection H as <- <-; split; reflexivity.
  - intros Hs dir entry.
    unfold write_patch_to_container, py_encode in H; rewrite Hs in H.
    cbn [bind ret now gets] in H. fold dir in H. fold entry in H.
    unfold put_archive in H.
    destruct (pop (inr true) (q_put (w_q w))) as [a rest] eqn:Ep.
    exists a; destruct a as [e|[|]]; cbn in H.
    + injection H as <- <-; cbn; repeat split; try discriminate.
      intros e' He'; injection He' as ->; reflexivity.
    + injection H as <- <-.
      unfold upd_containers, log_event, set_eng, set_q; cbn [w_eng w_trace e_containers].
      repeat split; try discriminate.
      intros c Hc.
      rewrite find_map_container by reflexivity. rewrite Hc.
      eexists; repeat split.
    + injection H as <- <-; cbn; repeat split; discriminate.
Qed.

Lemma C7_write_patch_witness :
  let w := start_world (demo_queues [] []) 0 in
  let rw := write_patch_to_container 0 demo_patch "/tmp/test.patch" w in
  (has_surrogate demo_patch = true -> fst rw = inl UnicodeEncodeError /\ snd rw = w) /\
  (has_surrogate demo_patch = false ->
   let dir := if py_truthy (dirname "/tmp/test.patch") then dirname "/tmp/test.patch" else "/"%string in
   let entry := mkTarEntry (basename "/tmp/test.patch") (String.length demo_patch) (e_clock (w_eng w)) demo_patch in
   exists o, w_trace (snd rw) = EvPut 0 dir [entry] o :: w_trace w /\
     (o = inr true -> fst rw = inr tt /\
        forall c, find_container 0 (e_containers (w_eng w)) = Some c ->
        exists c', find_container 0 (e_containers (w_eng (snd rw))) = Some c' /\
          c_files c' = ((dir, basename "/tmp/test.patch"), demo_patch) :: c_files c /\
          c_procs c' = c_procs c /\ c_running c' = c_running c) /\
     (o = inr false -> fst rw = inl (RuntimeError ("Failed to write patch to " ++ "/tmp/test.patch"))) /\
     (forall e, o = inl e -> fst rw = inl e)).
Proof.
  intros w rw.
  exact (C7_write_patch 0 demo_patch "/tmp/test.patch" w (fst rw) (snd rw)
           (surjective_pairing _)).
Defined.

Lemma length_partition outs :
  length outs = length (filter counts_f2p outs) + length (filter counts_env outs)
                + length (filter counts_failed outs).
Proof.
  induction outs as [|[e|res] outs IH]; cbn; [reflexivity | lia|].
  unfold passed_flags; destruct (r_f2p_pass res), (r_env_pass res); cbn; lia.
Qed.

(** C8 (the spec's reading): when the output directory is missing [main]
    returns 1, although no instance failed (none was evaluated).  And
    with [--output_dir /data] the results file is
    [/evaluation_results_data.json]: when it cannot be created, the run
    exits with 1 although its one instance reached [env_passed]. *)
Lemma C8_exit_counterexample :
  Forall (fun o : exn + Result => exists res, o = inr res /\ passed_flags res = true) [] /\
  exit_status (main_model false None false [] None) = 1 /\
  result_file "/data" = "/evaluation_results_data.json"%string /\
  let res := classify (with_both_patches 0 true (with_test_only 0 true (init_result "a" 0))) in
  r_status res = env_passed /\ passed_flags res = true /\
  exit_status (main_model true None false [inr res]
    (Some (OSError "[Errno 13] Permission denied: '/evaluation_results_data.json'"))) = 1.
Proof. vm_compute; split; [constructor | repeat split]. Qed.

(** C8 (as the code behaves): the exit status is 0 if and only if the
    output directory exists, listing it (when no instance ids are given)
    raises nothing, every instance's evaluation returned a result with
    [f2p_pass] or [env_pass] set, and the results file is written without
    error; an evaluation that raised (counted as failed in parallel mode,
    leaving [main] in sequential mode) makes it 1, and so does a missing
    output directory. *)
Theorem C8_exit_status dir lerr par outs werr :
  (exit_status (main_model dir lerr par outs werr) = 0 <->
   dir = true /\ lerr = None /\ werr = None /\
   Forall (fun o => exists res, o = inr res /\ passed_flags res = true) outs) /\
  exit_status (main_model false lerr par outs werr) = 1.
Proof.
  split; [|reflexivity].
  assert (Hfin : forall s, s = run_parallel (init_stats (length outs)) outs ->
            ((if Nat.eqb (s_failed s) 0 then 0 else 1) = 0 <->
             Forall (fun o => exists res, o = inr res /\ passed_flags res = true) outs)).
  { intros s ->.
    destruct (run_parallel_counts (init_stats (length outs)) outs) as (_ & _ & _ & Hf & _).
    rewrite Hf, <- filter_failed_nil; cbn.
    destruct (length (filter counts_failed outs)); cbn; split; congruence. }
  unfold main_model; destruct dir; cbn [negb].
  2: { split; [discriminate | intros [H _]; discriminate H]. }
  destruct lerr as [e|].
  { split; [discriminate | intros (_ & H & _); discriminate H]. }
  destruct werr as [e|].
  - split; [|intros (_ & _ & H & _); discriminate H].
    destruct par; [discriminate|].
    destruct (run_sequential (init_stats (length outs)) outs); discriminate.
  - destruct par.
    + cbn [exit_status]; rewrite (Hfin _ eq_refl).
      split; [intros H; repeat split; exact H | intros (_ & _ & _ & H); exact H].
    + destruct (run_sequential (init_stats (length outs)) outs) as [e|s] eqn:E;
        cbn [exit_status].
      * split; [discriminate|].
        intros (_ & _ & _ & HF).
        destruct (run_sequential_inl _ _ _ E) as (e' & He').
        rewrite Forall_forall in HF.
        destruct (HF _ He') as (res & Hr & _); discriminate Hr.
      * destruct (run_sequential_inr _ _ _ E) as [Hs _].
        rewrite (Hfin _ Hs).
        split; [intros H; repeat split; exact H | intros (_ & _ & _ & H); exact H].
Qed.

(** C9: from a fresh world, a result that ends in a stage timeout keeps
    that stage's time at 0 and its passed flag false. *)
Theorem C9_timeout_fields env iid od ns arch tag tmo ip q clk r w res :
  evaluate_single_instance env iid od ns arch tag tmo ip (start_world q clk) = (r, w) ->
  r = inr res ->
  (r_status res = test_only_timeout ->
     r_test_only_time res = 0 /\ r_test_only_passed res = false) /\
  (r_status res = both_patches_timeout ->
     r_both_patches_time res = 0 /\ r_both_patches_passed res = false).
Proof.
  intros H Hr.
  destruct (evaluate_start_spec _ _ _ _ _ _ _ _ _ _ _ _ H) as (_ & _ & _ & Hd & _).
  exact (Hd res Hr).
Qed.

Lemma C9_timeout_fields_witness :
  let rw := demo_run demo_env false
              (demo_queues [] [Finishes 500 (inr (mkExecResult 1 "")); Hangs]) in
  (r_status (w_result (snd rw)) = test_only_timeout ->
     r_test_only_time (w_result (snd rw)) = 0 /\
     r_test_only_passed (w_result (snd rw)) = false) /\
  (r_status (w_result (snd rw)) = both_patches_timeout ->
     r_both_patches_time (w_result (snd rw)) = 0 /\
     r_both_patches_passed (w_result (snd rw)) = false).
Proof.
  intros rw.
  refine (C9_timeout_fields demo_env "demo" "/out" "ns" "x86_64" "latest" 60 false
            (demo_queues [] [Finishes 500 (inr (mkExecResult 1 "")); Hangs]) 0
            (fst rw) (snd rw) (w_result (snd rw)) (surjective_pairing _) _).
  vm_compute; reflexivity.
Defined.

(** C10: in the statistics [main] writes, every instance was counted in
    exactly one of [f2p_passed], [env_passed], [failed] (in that order of
    priority), so [total = f2p_passed + env_passed + failed]; the
    breakdown counts only results with status [no_image] or [error]
    (and, in parallel mode, evaluations that raised, as [error]); every
    other failing status is counted in [failed] only. *)
Theorem C10_counters dir lerr par outs werr code s :
  main_model dir lerr par outs werr = Returned code (Some s) ->
  s_total s = s_f2p_passed s + s_env_passed s + s_failed s /\
  s_total s = length outs /\
  s_f2p_passed s = length (filter counts_f2p outs) /\
  s_env_passed s = length (filter counts_env outs) /\
  s_failed s = length (filter counts_failed outs) /\
  s_no_image s = length (filter counts_no_image outs) /\
  s_error s = length (filter counts_error outs).
Proof.
  intros H.
  destruct (main_model_written _ _ _ _ _ _ _ H) as (_ & _ & _ & -> & _).
  destruct (run_parallel_counts (init_stats (length outs)) outs)
    as (H1 & H2 & H3 & H4 & H5 & H6).
  rewrite H1, H2, H3, H4, H5, H6; cbn.
  pose proof (length_partition outs); lia.
Qed.

Lemma C10_counters_witness :
  let outs := [inr (with_status no_image "Docker image not found" (init_result "a" 0));
               inl (APIError "worker crashed");
               inr (with_status test_only_timeout "timed out" (init_result "b" 0))] in
  let s := mkStats 3 0 0 3 1 1 in
  s_total s = s_f2p_passed s + s_env_passed s + s_failed s /\
  s_total s = length outs /\
  s_f2p_passed s = length (filter counts_f2p outs) /\
  s_env_passed s = length (filter counts_env outs) /\
  s_failed s = length (filter counts_failed outs) /\
  s_no_image s = length (filter counts_no_image outs) /\
  s_error s = length (filter counts_error outs).
Proof.
  intros outs s.
  exact (C10_counters true None true outs None 1 s eq_refl).
Defined.

(* ------------------------------------------------------------------ *)
(** ** Further properties of the evaluator and of [main] *)

Ltac split_conj := repeat match goal with |- _ /\ _ => split end.

(** The outcomes of [install_pytest_in_container], as a relation on worlds. *)
Lemma install_pytest_spec cid t :
  triple (install_pytest_in_container cid t) (fun w r w' =>
    (forall e rest, q_exec (w_q w) = inl e :: rest -> r = inl e) /\
    (forall er rest, q_exec (w_q w) = inr er :: rest -> exit_code er <> 0%Z ->
       exists p, r = inr p) /\
    (forall er rest rest', q_exec (w_q w) = inr er :: rest -> exit_code er <> 0%Z ->
       q_timed (w_q w) = Hangs :: rest' ->
       r = inr (false, "pytest installation timed out after " ++ Z_to_string t ++ "s")%string) /\
    (forall msg, r = inr (true, msg) ->
       exists er, In (EvExec cid pytest_check_cmd (inr er)) (w_trace w') /\ exit_code er = 0%Z)).
Proof.
  triple_start_r. unfold install_pytest_in_container.
  destruct qe as [|[e0|er0] qe]; destruct qt as [|[d o|] qt]; symex.
  all: repeat split; intros;
       repeat match goal with
       | H : _ :: _ = _ :: _ |- _ => injection H as ?H1 ?H2
       | H : inl _ = inl _ |- _ => injection H as H
       | H : inr _ = inr _ |- _ => injection H as H
       | H : (_, _) = (_, _) |- _ => injection H as ?H1 ?H2
       end; subst;
       repeat match goal with
       | H : Z.eqb _ _ = true |- _ => apply Z.eqb_eq in H
       | H : Z.eqb _ _ = false |- _ => apply Z.eqb_neq in H
       end;
       try congruence; try (eexists; reflexivity);
       try (eexists; split; [left; reflexivity | assumption]);
       try (eexists; split; [right; left; reflexivity | assumption]);
       try (eexists; split; [left; reflexivity | reflexivity]).
Qed.


(** Sorting the directory listing. *)
Lemma string_compare_trans a b c :
  String.compare a b <> Gt -> String.compare b c <> Gt -> String.compare a c <> Gt.
Proof.
  revert b c; induction a as [|x a IH]; intros [|y b] [|z c]; cbn; try congruence.
  unfold Ascii.compare.
  destruct (N.compare_spec (N_of_ascii x) (N_of_ascii y)) as [Hxy|Hxy|Hxy];
  destruct (N.compare_spec (N_of_ascii y) (N_of_ascii z)) as [Hyz|Hyz|Hyz];
  destruct (N.compare_spec (N_of_ascii x) (N_of_ascii z)) as [Hxz|Hxz|Hxz];
  try congruence; try lia.
  intros H1 H2; exact (IH _ _ H1 H2).
Qed.

Lemma string_leb_trans a b c :
  String.leb a b = true -> String.leb b c = true -> String.leb a c = true.
Proof.
  unfold String.leb.
  destruct (String.compare a b) eqn:E1; try discriminate;
  destruct (String.compare b c) eqn:E2; try discriminate;
  destruct (String.compare a c) eqn:E3; try reflexivity;
  exfalso; refine (string_compare_trans a b c _ _ E3); congruence.
Qed.

Lemma insert_sorted_sorted x l :
  Sorted (fun a b => String.leb a b = true) l ->
  Sorted (fun a b => String.leb a b = true) (insert_sorted x l).
Proof.
  induction 1 as [|y l Hl IH Hhd]; cbn.
  - repeat constructor.
  - destruct (String.leb x y) eqn:E.
    + constructor; [constructor; assumption | constructor; exact E].
    + constructor; [exact IH|].
      assert (Ey : String.leb y x = true).
      { destruct (String.leb_total x y); congruence. }
      destruct l as [|z l]; cbn; [constructor; exact Ey|].
      destruct (String.leb x z); constructor; [exact Ey|].
      inversion Hhd; assumption.
Qed.

Lemma py_sorted_sorted l : Sorted (fun a b => String.leb a b = true) (py_sorted l).
Proof. induction l; cbn; [constructor | apply insert_sorted_sorted; assumption]. Qed.

Lemma insert_sorted_perm x l : Permutation (x :: l) (insert_sorted x l).
Proof.
  induction l as [|y l IH]; cbn; [reflexivity|].
  destruct (String.leb x y); [reflexivity|].
  rewrite perm_swap; constructor; exact IH.
Qed.

Lemma py_sorted_perm l : Permutation l (py_sorted l).
Proof.
  induction l as [|x l IH]; cbn; [reflexivity|].
  rewrite <- insert_sorted_perm; constructor; exact IH.
Qed.

(** The listing scan of [main] is a filter. *)
Lemma scan_item_eq od isdir exists_ acc item :
  scan_item od isdir exists_ acc item =
  if isdir (path_join od item) && exists_ (path_join (path_join od item) "instance.json")
  then acc ++ [item] else acc.
Proof.
  unfold scan_item; destruct (isdir (path_join od item)); reflexivity.
Qed.

Lemma fold_scan_item od isdir exists_ items acc :
  fold_left (scan_item od isdir exists_) items acc =
  acc ++ filter (fun item => isdir (path_join od item) &&
                             exists_ (path_join (path_join od item) "instance.json")) items.
Proof.
  revert acc; induction items as [|item items IH]; intros acc.
  - simpl; rewrite app_nil_r; reflexivity.
  - simpl fold_left; rewrite IH, scan_item_eq; cbn [filter].
    destruct (isdir (path_join od item) &&
              exists_ (path_join (path_join od item) "instance.json"));
      [rewrite <- app_assoc; reflexivity | reflexivity].
Qed.

Lemma filter_sorted (f : string -> bool) l :
  Sorted (fun a b => String.leb a b = true) l ->
  Sorted (fun a b => String.leb a b = true) (filter f l).
Proof.
  intros H; apply StronglySorted_Sorted.
  apply Sorted_StronglySorted in H; [|intros a b c; apply string_leb_trans].
  induction H as [|a l Hs IH Hall]; cbn; [constructor|].
  destruct (f a); [|exact IH].
  constructor; [exact IH|].
  rewrite Forall_forall in *; intros x Hx; apply filter_In in Hx as [Hx _]; auto.
Qed.



(** X_classify_frame (lines 519-534): the final classification changes
    only the status, the message and the two pass flags; the status it
    sets is [f2p_passed], [env_passed] or [failed]; classifying twice
    gives the same record. *)
Lemma X_classify_frame r :
  let r' := classify r in
  r_instance_id r' = r_instance_id r /\ r_timestamp r' = r_timestamp r /\
  r_image_name r' = r_image_name r /\
  r_test_only_time r' = r_test_only_time r /\ r_both_patches_time r' = r_both_patches_time r /\
  r_test_only_passed r' = r_test_only_passed r /\
  r_both_patches_passed r' = r_both_patches_passed r /\
  r_test_only_log r' = r_test_only_log r /\ r_both_patches_log r' = r_both_patches_log r /\
  r_error_log r' = r_error_log r /\
  (r_status r' = f2p_passed \/ r_status r' = env_passed \/ r_status r' = failed) /\
  classify r' = r'.
Proof.
  destruct r as [a b c d e f g h1 h2 k l m n o]; cbv zeta.
  destruct h1, h2; cbn -[String.append]; repeat match goal with |- _ /\ _ => split end;
    auto; reflexivity.
Qed.



(** X_handlers (lines 536-551): the [except] clauses of
    [evaluate_single_instance] never raise and never touch the container
    or the engine.  [ImageNotFound] only sets status [no_image]; any other
    exception sets status [error] with the exception text, writes one
    [error.log] file and records its path. *)
Lemma X_handlers iid x e w r w' :
  evaluate_handlers iid x e w = (r, w') ->
  let p := path_join (x_logs_dir x) "error.log" in
  r = inr tt /\ w_container w' = w_container w /\ w_eng w' = w_eng w /\ w_q w' = w_q w /\
  (is_image_not_found e = true ->
     w_result w' = with_status no_image ("Docker image not found: " ++ x_image_name x)%string
                     (w_result w) /\ w_trace w' = w_trace w) /\
  (is_image_not_found e = false ->
     w_result w' = with_error_log p
                     (with_status error ("Unexpected error: " ++ exn_str e)%string (w_result w)) /\
     exists msg, w_trace w' = EvWrite p msg :: w_trace w).
Proof.
  unfold evaluate_handlers; intros H; cbv zeta.
  destruct (is_image_not_found e) eqn:E;
    cbv [bind modify gets update_result now write_file set_result_slot log_event set_files] in H;
    cbn [w_result w_trace w_eng w_q w_container w_files] in H;
    injection H as <- <-; cbn [w_result w_trace w_eng w_q w_container w_files]; split_conj;
    try reflexivity; intros; try discriminate; split_conj; try reflexivity.
  eexists; reflexivity.
Qed.

(** X_exec_timed (lines 167-211): [exec_run_with_timeout] never waits
    longer than its bound and changes neither the container slot nor the
    result record; an exception of a command that finishes in time is
    re-raised as is; with a non-positive timeout, any command that takes
    time is reported as a [TimeoutError]. *)
Lemma X_exec_timed cid cmd t w r w' :
  exec_run_with_timeout cid cmd t w = (r, w') ->
  let bound := 100 * Z.to_nat t in
  e_clock (w_eng w) <= e_clock (w_eng w') <= e_clock (w_eng w) + bound /\
  w_container w' = w_container w /\ w_result w' = w_result w /\
  (forall d e rest, q_timed (w_q w) = Finishes d (inl e) :: rest -> d <= bound ->
     r = inl e /\ w_trace w' = EvTimed cid cmd (Some (inl e)) :: w_trace w) /\
  ((t <= 0)%Z -> forall d o rest, q_timed (w_q w) = Finishes d o :: rest -> 0 < d ->
     exists msg, r = inl (TimeoutError msg)).
Proof.
  intros H; cbv zeta.
  assert (Hnp : (t <= 0)%Z -> 100 * Z.to_nat t = 0)
    by (intros Ht; destruct t; [reflexivity| lia | reflexivity]).
  unfold exec_run_with_timeout in H.
  destruct (q_timed (w_q w)) as [|[d o|] rest] eqn:Eq; cbn [pop] in H.
  - cbv [sleep set_q set_eng log_event upd_containers] in H;
      cbn [w_eng w_q w_files w_trace w_container w_result e_clock] in H.
    injection H as <- <-; cbn [w_eng w_q w_files w_trace w_container w_result e_clock].
    split_conj; try lia; try reflexivity; intros; discriminate.
  - destruct (Nat.leb d (100 * Z.to_nat t)) eqn:Ed.
    + apply Nat.leb_le in Ed.
      cbv [sleep set_q set_eng log_event upd_containers] in H;
        cbn [w_eng w_q w_files w_trace w_container w_result e_clock] in H.
      destruct o as [e|x]; injection H as <- <-;
        cbn [w_eng w_q w_files w_trace w_container w_result e_clock];
        split_conj; try lia; try reflexivity;
        intros; repeat match goal with H : Finishes _ _ :: _ = Finishes _ _ :: _ |- _ =>
                          injection H as ?H1 ?H2 ?H3 end; subst; try discriminate;
        try (split; reflexivity);
        exfalso; match goal with Ht : (t <= 0)%Z |- _ => specialize (Hnp Ht) end; lia.
    + apply Nat.leb_gt in Ed.
      cbv [sleep set_q set_eng log_event upd_containers] in H;
        cbn [w_eng w_q w_files w_trace w_container w_result e_clock] in H.
      injection H as <- <-; cbn [w_eng w_q w_files w_trace w_container w_result e_clock].
      split_conj; try lia; try reflexivity.
      * intros d' e' rest' Hq Hd'; injection Hq as -> -> ->; lia.
      * intros _ d' o' rest' _ _; eexists; reflexivity.
  - cbv [sleep set_q set_eng log_event upd_containers] in H;
      cbn [w_eng w_q w_files w_trace w_container w_result e_clock] in H.
    injection H as <- <-; cbn [w_eng w_q w_files w_trace w_container w_result e_clock].
    split_conj; try lia; try reflexivity.
    * intros d' e' rest' Hq; discriminate Hq.
    * intros _ d' o' rest' Hq; discriminate Hq.
Qed.

(** Strings as byte lists. *)
Lemma list_ascii_of_string_app (a b : string) :
  list_ascii_of_string (a ++ b)%string = list_ascii_of_string a ++ list_ascii_of_string b.
Proof. induction a as [|c a IH]; cbn; [reflexivity | rewrite IH; reflexivity]. Qed.

Lemma list_ascii_of_string_inj (a b : string) :
  list_ascii_of_string a = list_ascii_of_string b -> a = b.
Proof.
  intros H; rewrite <- (string_of_list_ascii_of_string a), <- (string_of_list_ascii_of_string b), H.
  reflexivity.
Qed.

(** [p[:i] + p[i:] == p] for [i = p.rfind('/') + 1]; the tail holds no
    slash and the head is empty or ends with one. *)
Lemma split_last_slash_spec p :
  (fst (split_last_slash p) ++ snd (split_last_slash p))%string = p /\
  ~ In "/"%char (list_ascii_of_string (snd (split_last_slash p))) /\
  (fst (split_last_slash p) = ""%string \/
   exists h, fst (split_last_slash p) = (h ++ "/")%string).
Proof.
  induction p as [|c p IH]; cbn [split_last_slash].
  - cbn; split; [reflexivity | split; [tauto | left; reflexivity]].
  - destruct (split_last_slash p) as [h t]; cbn [fst snd] in *.
    destruct IH as (Happ & Hns & Hh).
    destruct (String.eqb h "") eqn:Eh; cbn [negb].
    + apply String.eqb_eq in Eh; subst h; cbn in Happ; subst t.
      destruct (Ascii.eqb c "/") eqn:Ec.
      * apply Ascii.eqb_eq in Ec; subst c; cbn [fst snd].
        split; [reflexivity | split; [exact Hns | right; exists ""%string; reflexivity]].
      * apply Ascii.eqb_neq in Ec; cbn [fst snd].
        split; [reflexivity | split; [|left; reflexivity]].
        cbn; intros [H|H]; [congruence | exact (Hns H)].
    + cbn [fst snd]. split; [cbn; rewrite Happ; reflexivity | split; [exact Hns|]].
      destruct Hh as [Hh|[h' Hh]]; [apply String.eqb_neq in Eh; contradiction|].
      right; exists (String c h'); rewrite Hh; reflexivity.
Qed.

(** [str.lower] is idempotent. *)
Lemma lower_byte_idem a : lower_byte (lower_byte a) = lower_byte a.
Proof.
  destruct a as [[] [] [] [] [] [] [] []]; vm_compute; reflexivity.
Qed.

Lemma py_lower_idem s : py_lower (py_lower s) = py_lower s.
Proof. induction s as [|c s IH]; cbn; [reflexivity | rewrite lower_byte_idem, IH; reflexivity]. Qed.

(** X_image_name_key (lines 25-42): for a fixed namespace, architecture
    and tag, two instance ids give the same image name exactly when they
    agree after [str.lower]; so lower-casing the id first changes nothing. *)
Theorem X_image_name_key a b ns arch tag :
  (get_image_name a ns arch tag = get_image_name b ns arch tag <-> py_lower a = py_lower b) /\
  get_image_name (py_lower a) ns arch tag = get_image_name a ns arch tag.
Proof.
  split.
  - unfold get_image_name; split; [intros H | intros ->; reflexivity].
    apply (f_equal list_ascii_of_string) in H.
    rewrite !list_ascii_of_string_app in H.
    apply app_inv_head in H; cbn in H.
    repeat match goal with Hc : _ :: _ = _ :: _ |- _ => injection Hc as Hc end.
    rewrite <- !app_assoc in H; apply app_inv_head in H; cbn in H.
    injection H as H.
    apply app_inv_tail in H.
    apply list_ascii_of_string_inj; exact H.
  - unfold get_image_name; rewrite py_lower_idem; reflexivity.
Qed.

(** X_container_name_slash (line 306): [instance_id.replace('/', '_')],
    used in the container name, holds no slash, has the length of the id,
    and leaves an id without slash unchanged. *)
Theorem X_container_name_slash s :
  ~ In "/"%char (list_ascii_of_string (replace_slash s)) /\
  String.length (replace_slash s) = String.length s /\
  (~ In "/"%char (list_ascii_of_string s) -> replace_slash s = s).
Proof.
  induction s as [|c s (IH1 & IH2 & IH3)]; cbn [replace_slash].
  - cbn; split; [tauto | split; [reflexivity | intros; reflexivity]].
  - split; [|split].
    + cbn; intros [H|H]; [|exact (IH1 H)].
      destruct (Ascii.eqb c "/") eqn:E; [discriminate H|].
      apply Ascii.eqb_neq in E; congruence.
    + cbn; rewrite IH2; reflexivity.
    + cbn; intros H.
      destruct (Ascii.eqb c "/") eqn:E.
      * apply Ascii.eqb_eq in E; subst c; exfalso; apply H; left; reflexivity.
      * rewrite IH3; [reflexivity | intros Hin; apply H; right; exact Hin].
Qed.

(** [str.split(sep)] of a concatenation around [sep]. *)
Lemma split_on_aux_app sep s1 s2 cur :
  split_on_aux sep (s1 ++ String sep s2)%string cur =
  split_on_aux sep s1 cur ++ split_on_aux sep s2 ""%string.
Proof.
  revert cur; induction s1 as [|c s1 IH]; intros cur; cbn [append split_on_aux].
  - rewrite Ascii.eqb_refl; reflexivity.
  - destruct (Ascii.eqb c sep); [rewrite IH; reflexivity | apply IH].
Qed.

(** The emptiness test of [extract_test_files_from_patch] is redundant:
    the scan of the single empty line finds nothing. *)
Lemma extract_fold p :
  extract_test_files_from_patch p = fold_left scan_line (py_split_on "010"%char p) [].
Proof.
  unfold extract_test_files_from_patch, py_truthy.
  destruct (String.eqb p ""%string) eqn:E; cbn [negb]; [|reflexivity].
  apply String.eqb_eq in E; subst p; vm_compute; reflexivity.
Qed.

(** X_extract_concat (lines 45-70): the test files of two patch texts
    joined by a newline are those of the first followed by those of the
    second. *)
Theorem X_extract_concat p1 p2 :
  extract_test_files_from_patch (p1 ++ nl ++ p2)%string =
  extract_test_files_from_patch p1 ++ extract_test_files_from_patch p2.
Proof.
  rewrite !extract_fold; unfold py_split_on, nl; cbn [append].
  rewrite split_on_aux_app, !fold_scan_line; cbn [app].
  rewrite filter_app, map_app, filter_app; reflexivity.
Qed.

(** The sequential loop raises the first exception among the outcomes. *)
Lemma run_sequential_raise s outs e :
  run_sequential s outs = inl e <->
  exists pre post, outs = pre ++ inl e :: post /\ Forall (fun o => exists r, o = inr r) pre.
Proof.
  revert s; induction outs as [|[e0|r0] outs IH]; intros s; cbn [run_sequential].
  - split; [discriminate|]. intros (pre & post & H & _); destruct pre; discriminate H.
  - split.
    + intros H; injection H as He; subst e0; exists [], outs; split; [reflexivity | constructor].
    + intros (pre & post & H & Hf); destruct pre as [|o pre].
      * injection H as -> _; reflexivity.
      * injection H as Ho _; subst o; inversion Hf as [|? ? [r Hr] _]; discriminate Hr.
  - rewrite IH; split.
    + intros (pre & post & -> & Hf); exists (inr r0 :: pre), post; split; [reflexivity|].
      constructor; [exists r0; reflexivity | exact Hf].
    + intros (pre & post & H & Hf); destruct pre as [|o pre]; [discriminate H|].
      injection H as Ho H; subst o; exists pre, post; split; [exact H|]; inversion Hf; assumption.
Qed.

(** X_main_raises (lines 636-659, 695-772, 806): [main] lets an
    exception escape exactly when the output directory exists and either
    listing it raises, or the run is sequential and some instance raises
    (the exception is the first one raised, every instance before it
    having returned a result), or no instance's exception escaped and
    writing the results file raises.  The parallel loop lets no
    instance's exception escape. *)
Theorem X_main_raises dir lerr par outs werr e :
  main_model dir lerr par outs werr = Raised e <->
  dir = true /\
  (lerr = Some e \/
   lerr = None /\
   ((par = false /\
     exists pre post, outs = pre ++ inl e :: post /\
                      Forall (fun o => exists r, o = inr r) pre) \/
    (werr = Some e /\ (par = true \/ Forall (fun o => exists r, o = inr r) outs)))).
Proof.
  unfold main_model; destruct dir; cbn [negb].
  2: { split; [discriminate | intros (H & _); discriminate H]. }
  destruct lerr as [e0|].
  { split.
    - intros H; injection H as ->; split; [reflexivity | left; reflexivity].
    - intros (_ & [H | (H & _)]); [injection H as ->; reflexivity | discriminate H]. }
  destruct par.
  - destruct werr as [e1|]; split.
    + intros H; injection H as ->.
      split; [reflexivity | right; split; [reflexivity | right; split; [reflexivity | left; reflexivity]]].
    + intros (_ & [H | (_ & [(H & _) | (H & _)])]);
        [discriminate H | discriminate H | injection H as ->; reflexivity].
    + discriminate.
    + intros (_ & [H | (_ & [(H & _) | (H & _)])]); discriminate H.
  - pose proof (run_sequential_raise (init_stats (length outs)) outs e) as R.
    destruct (run_sequential (init_stats (length outs)) outs) as [e'|s] eqn:E.
    + split.
      * intros H; injection H as ->.
        split; [reflexivity | right; split; [reflexivity | left; split; [reflexivity | apply R; reflexivity]]].
      * intros (_ & [H | (_ & [(_ & Hx) | (Hw & [Hp | HF])])]).
        -- discriminate H.
        -- apply R in Hx; injection Hx as ->; reflexivity.
        -- discriminate Hp.
        -- exfalso; destruct (run_sequential_inl _ _ _ E) as (e'' & He'').
           rewrite Forall_forall in HF; destruct (HF _ He'') as (r & Hr); discriminate Hr.
    + destruct (run_sequential_inr _ _ _ E) as [_ HF].
      destruct werr as [e1|]; split.
      * intros H; injection H as ->.
        split; [reflexivity | right; split; [reflexivity | right; split; [reflexivity | right; exact HF]]].
      * intros (_ & [H | (_ & [(_ & Hx) | (Hw & _)])]).
        -- discriminate H.
        -- apply R in Hx; discriminate Hx.
        -- injection Hw as ->; reflexivity.
      * discriminate.
      * intros (_ & [H | (_ & [(_ & Hx) | (Hw & _)])]).
        -- discriminate H.
        -- apply R in Hx; discriminate Hx.
        -- discriminate Hw.
Qed.

(** X_select_scan (lines 654-667): without [--instances] or
    [--max_instances], the instances evaluated are sorted and are exactly
    the entries of the output directory that are directories holding an
    [instance.json]. *)
Theorem X_select_scan od listing isdir exists_ :
  let l := select_instances od [] listing isdir exists_ None in
  Sorted (fun a b => String.leb a b = true) l /\
  forall item, In item l <->
    In item listing /\ isdir (path_join od item) = true /\
    exists_ (path_join (path_join od item) "instance.json"%string) = true.
Proof.
  cbv zeta; unfold select_instances; rewrite fold_scan_item; cbn [app].
  split; [apply filter_sorted, py_sorted_sorted|].
  intros item; rewrite filter_In, andb_true_iff.
  split; intros (H1 & H2); split; try exact H2;
    [apply (Permutation_in _ (Permutation_sym (py_sorted_perm listing))) |
     apply (Permutation_in _ (py_sorted_perm listing))]; exact H1.
Qed.

(** X_select_limit (lines 654-671): instance ids given on the command
    line are used as given; [--max_instances m] keeps a prefix of the
    selection: all of it when [m = 0], its first [m] entries when [m > 0],
    and all but its last [-m] entries when [m < 0]. *)
Theorem X_select_limit od instances listing isdir exists_ m :
  let base := select_instances od instances listing isdir exists_ None in
  let l := select_instances od instances listing isdir exists_ (Some m) in
  (instances <> [] -> base = instances) /\
  (exists rest, base = l ++ rest) /\
  length l = (if (m =? 0)%Z then length base
              else if (0 <? m)%Z then Nat.min (Z.to_nat m) (length base)
              else length base - Z.to_nat (- m)).
Proof.
  cbv zeta; unfold select_instances.
  set (b := match instances with
            | [] => fold_left (scan_item od isdir exists_) (py_sorted listing) []
            | _ :: _ => instances end).
  split; [intros H; unfold b; destruct instances; [congruence | reflexivity]|].
  destruct (m =? 0)%Z eqn:Em.
  - split; [exists []; rewrite app_nil_r; reflexivity | reflexivity].
  - unfold py_slice_to; split.
    + eexists; symmetry; apply firstn_skipn.
    + rewrite length_firstn.
      destruct (0 <=? m)%Z eqn:E0; destruct (0 <? m)%Z eqn:E1;
        rewrite ?Z.leb_le, ?Z.leb_gt, ?Z.ltb_lt, ?Z.ltb_ge, ?Z.eqb_neq in *; try lia.
Qed.

(** X_install_pytest (lines 108-151): an exception of the first
    [pytest --version] check escapes; once that check has failed, the
    function never raises: a hanging installation gives the timeout
    message; success is only reported after a check command exited 0. *)
Theorem X_install_pytest cid t w r w' :
  install_pytest_in_container cid t w = (r, w') ->
    (forall e rest, q_exec (w_q w) = inl e :: rest -> r = inl e) /\
    (forall er rest, q_exec (w_q w) = inr er :: rest -> exit_code er <> 0%Z ->
       exists p, r = inr p) /\
    (forall er rest rest', q_exec (w_q w) = inr er :: rest -> exit_code er <> 0%Z ->
       q_timed (w_q w) = Hangs :: rest' ->
       r = inr (false, "pytest installation timed out after " ++ Z_to_string t ++ "s")%string) /\
    (forall msg, r = inr (true, msg) ->
       exists er, In (EvExec cid pytest_check_cmd (inr er)) (w_trace w') /\ exit_code er = 0%Z).
Proof. intros H; exact (install_pytest_spec cid t w r w' H). Qed.

(** [X_install_pytest] on a missing pytest whose installation hangs. *)
Lemma X_install_pytest_witness :
  let w0 := start_world (demo_queues [inr (mkExecResult 1 "")] [Hangs]) 0 in
  let res := install_pytest_in_container 0 5 w0 in
    (forall e rest, q_exec (w_q w0) = inl e :: rest -> fst res = inl e) /\
    (forall er rest, q_exec (w_q w0) = inr er :: rest -> exit_code er <> 0%Z ->
       exists p, fst res = inr p) /\
    (forall er rest rest', q_exec (w_q w0) = inr er :: rest -> exit_code er <> 0%Z ->
       q_timed (w_q w0) = Hangs :: rest' ->
       fst res = inr (false, "pytest installation timed out after " ++ Z_to_string 5 ++ "s")%string) /\
    (forall msg, fst res = inr (true, msg) ->
       exists er, In (EvExec 0 pytest_check_cmd (inr er)) (w_trace (snd res)) /\ exit_code er = 0%Z).
Proof.
  intros w0 res; exact (X_install_pytest 0 5 w0 (fst res) (snd res) (surjective_pairing _)).
Defined.

(** X_patch_entry_name (lines 91-101): the name of the archive entry,
    [os.path.basename(dest_path)], holds no slash and completes the head
    of [dest_path] to the whole path; a [dest_path] without slash is the
    entry name itself and its [os.path.dirname] is empty, so the upload
    goes to [/]. *)
Theorem X_patch_entry_name dest :
  (fst (split_last_slash dest) ++ basename dest)%string = dest /\
  ~ In "/"%char (list_ascii_of_string (basename dest)) /\
  (~ In "/"%char (list_ascii_of_string dest) ->
     basename dest = dest /\ dirname dest = ""%string).
Proof.
  unfold basename; destruct (split_last_slash_spec dest) as (Happ & Hns & Hh).
  split; [exact Happ | split; [exact Hns|]].
  intros Hd; destruct Hh as [Hh|[h Hh]].
  - rewrite Hh in Happ; cbn in Happ.
    split; [exact Happ | unfold dirname; rewrite Hh; reflexivity].
  - exfalso; apply Hd; rewrite <- Happ, Hh, !list_ascii_of_string_app.
    apply in_or_app; left; apply in_or_app; right; left; reflexivity.
Qed.

(** [X_exec_timed] on a command that raises after 3 centiseconds. *)
Lemma X_exec_timed_witness :
  let w0 := start_world (demo_queues [] [Finishes 3 (inl (APIError "boom"%string))]) 0 in
  let res := exec_run_with_timeout 0 ["pytest"%string] 1 w0 in
  let bound := 100 * Z.to_nat 1 in
  e_clock (w_eng w0) <= e_clock (w_eng (snd res)) <= e_clock (w_eng w0) + bound /\
  w_container (snd res) = w_container w0 /\ w_result (snd res) = w_result w0 /\
  (forall d e rest, q_timed (w_q w0) = Finishes d (inl e) :: rest -> d <= bound ->
     fst res = inl e /\
     w_trace (snd res) = EvTimed 0 ["pytest"%string] (Some (inl e)) :: w_trace w0) /\
  ((1 <= 0)%Z -> forall d o rest, q_timed (w_q w0) = Finishes d o :: rest -> 0 < d ->
     exists msg, fst res = inl (TimeoutError msg)).
Proof.
  intros w0 res.
  exact (X_exec_timed 0 ["pytest"%string] 1 w0 (fst res) (snd res) (surjective_pairing _)).
Defined.


(** [X_handlers] on an API error. *)
Lemma X_handlers_witness :
  let w0 := start_world (demo_queues [] []) 7 in
  let e := APIError "connection reset"%string in
  let res := evaluate_handlers "demo" demo_ctx e w0 in
  let p := path_join (x_logs_dir demo_ctx) "error.log" in
  fst res = inr tt /\ w_container (snd res) = w_container w0 /\
  w_eng (snd res) = w_eng w0 /\ w_q (snd res) = w_q w0 /\
  (is_image_not_found e = true ->
     w_result (snd res) = with_status no_image ("Docker image not found: " ++ x_image_name demo_ctx)%string
                     (w_result w0) /\ w_trace (snd res) = w_trace w0) /\
  (is_image_not_found e = false ->
     w_result (snd res) = with_error_log p
                     (with_status error ("Unexpected error: " ++ exn_str e)%string (w_result w0)) /\
     exists msg, w_trace (snd res) = EvWrite p msg :: w_trace w0).
Proof.
  intros w0 e res.
  exact (X_handlers "demo" demo_ctx e w0 (fst res) (snd res) (surjective_pairing _)).
Defined.


(** [posixpath] splitting of paths with a known last slash. *)
Lemma split_last_slash_no_slash y :
  ~ In "/"%char (list_ascii_of_string y) -> split_last_slash y = (""%string, y).
Proof.
  induction y as [|c y IH]; intros Hy; [reflexivity|].
  cbn [split_last_slash]; rewrite IH by (intros H; apply Hy; right; exact H).
  cbn [String.eqb negb].
  destruct (Ascii.eqb c "/") eqn:E; [|reflexivity].
  apply Ascii.eqb_eq in E; subst c; exfalso; apply Hy; left; reflexivity.
Qed.

Lemma split_last_slash_app_slash h y :
  ~ In "/"%char (list_ascii_of_string y) ->
  split_last_slash (h ++ "/" ++ y)%string = ((h ++ "/")%string, y).
Proof.
  intros Hy; induction h as [|c h IH].
  - cbn [append split_last_slash]; rewrite split_last_slash_no_slash by exact Hy; reflexivity.
  - change (String c h ++ "/" ++ y)%string with (String c (h ++ "/" ++ y)%string).
    cbn [split_last_slash]; rewrite IH.
    destruct h; reflexivity.
Qed.

Lemma string_app_assoc (a b c : string) : ((a ++ b) ++ c = a ++ b ++ c)%string.
Proof. induction a as [|x a IH]; cbn; [reflexivity | rewrite IH; reflexivity]. Qed.

Lemma endswith_slash d :
  py_endswith d "/"%string = true -> exists h, d = (h ++ "/")%string.
Proof.
  unfold py_endswith; cbn [String.length].
  rewrite andb_true_iff, Nat.leb_le, String.eqb_eq.
  induction d as [|c d IH]; intros [Hl Hs]; [cbn in Hl; lia|].
  cbn [String.length] in Hs; rewrite Nat.sub_succ, Nat.sub_0_r in Hs.
  destruct d as [|c' d'].
  - cbn in Hs; injection Hs as ->; exists ""%string; reflexivity.
  - cbn [String.length substring] in Hs.
    destruct IH as [h Hh].
    + split; [cbn; lia|]. cbn [String.length]; rewrite Nat.sub_succ, Nat.sub_0_r; exact Hs.
    + exists (String c h); rewrite Hh; reflexivity.
Qed.

(** X_result_file_name (lines 779-783): the detailed results are saved
    in a file named [evaluation_results_<name>.json], where [<name>] is
    the base name of the output directory without trailing slashes. *)
Theorem X_result_file_name output_dir :
  basename (result_file output_dir) =
  ("evaluation_results_" ++ basename (rstrip_slash output_dir) ++ ".json")%string.
Proof.
  unfold result_file; cbv zeta.
  set (b := basename (rstrip_slash output_dir)).
  set (n := ("evaluation_results_" ++ b ++ ".json")%string).
  assert (Hn : ~ In "/"%char (list_ascii_of_string n)).
  { unfold n; rewrite !list_ascii_of_string_app; intros H.
    apply in_app_or in H as [H|H]; [cbn in H; intuition discriminate|].
    apply in_app_or in H as [H|H]; [|cbn in H; intuition discriminate].
    unfold b, basename in H; exact (proj1 (proj2 (split_last_slash_spec _)) H). }
  set (d := dirname output_dir).
  unfold path_join, basename.
  replace (py_startswith n "/") with false by reflexivity.
  destruct (negb (py_truthy d) || py_endswith d "/") eqn:E.
  - apply orb_true_iff in E as [E|E].
    + unfold py_truthy in E; rewrite negb_involutive, String.eqb_eq in E; rewrite E.
      cbn [append]; rewrite split_last_slash_no_slash by exact Hn; reflexivity.
    + destruct (endswith_slash d E) as [h ->].
      rewrite string_app_assoc; rewrite split_last_slash_app_slash by exact Hn; reflexivity.
  - rewrite split_last_slash_app_slash by exact Hn; reflexivity.
Qed.
